(** * JETSCAPE-analysis: the ASCII event reader and the analysis driver

    A shallow embedding of
      - [jetscape_analysis/analysis/reader/reader_ascii.py]   (class [ReaderAscii])
      - [jetscape_analysis/analysis/analyze_events_base.py]   (class [AnalyzeJetscapeEvents_Base])
    and the properties of the design document that concern them.

    Conventions.
      - A text file is the list of its lines as [readlines()] returns them
        (each line keeps its terminator).  Text is ASCII.
      - Python exceptions, [sys.exit] included, are values of [exn]; a
        computation that may raise returns [result].
      - Python's [float] is an interface ([PyFloat]); nothing below depends
        on how a token is rounded, only on whether it converts. *)

From Stdlib Require Import String Ascii List Arith Bool Lia QArith DecimalString.
Import ListNotations.
Open Scope string_scope.
Open Scope list_scope.
Open Scope nat_scope.

(** ** Exceptions and results *)

Inductive exn : Type :=
| AttributeError
| ValueError
| IndexError
| KeyError
| TypeError
| ZeroDivisionError
| FileNotFoundError
| NotImplementedError
| SystemExit (msg : string).

Inductive result (A : Type) : Type :=
| Return (a : A)
| Raise (e : exn).

Arguments Return {A} a.
Arguments Raise {A} e.

Definition bind {A B : Type} (r : result A) (k : A -> result B) : result B :=
  match r with
  | Return a => k a
  | Raise e => Raise e
  end.

Notation "x <- r ;; k" := (bind r (fun x => k))
  (at level 61, r at next level, right associativity).

Definition returns {A : Type} (r : result A) : bool :=
  match r with Return _ => true | Raise _ => false end.

(** ** The fragment of Python's [str] the sources use *)

Module PyStr.

(** [str.isspace] on ASCII: TAB..CR, FS..US and the space. *)
Definition isspace (c : ascii) : bool :=
  let n := nat_of_ascii c in
  ((9 <=? n) && (n <=? 13)) || ((28 <=? n) && (n <=? 32)).

Definition newline : ascii := ascii_of_nat 10.

(** [s.startswith(p)] *)
Definition startswith (s p : string) : bool := String.prefix p s.

(** [needle in hay] *)
Fixpoint contains (needle hay : string) : bool :=
  String.prefix needle hay ||
  match hay with
  | EmptyString => false
  | String _ hay' => contains needle hay'
  end.

(** [s.endswith("/")] *)
Fixpoint endswith_slash (s : string) : bool :=
  match s with
  | EmptyString => false
  | String c EmptyString => Ascii.eqb c "/"
  | String _ s' => endswith_slash s'
  end.

(** [s.rstrip('\n')] *)
Fixpoint rstrip_newline (s : string) : string :=
  match s with
  | EmptyString => EmptyString
  | String c s' =>
      match rstrip_newline s' with
      | EmptyString => if Ascii.eqb c newline then EmptyString else String c EmptyString
      | r => String c r
      end
  end.

(** [s.split()]: maximal runs of non-whitespace characters.  [tok] is the
    run being read, if any. *)
Fixpoint split_from (s : string) (tok : option string) : list string :=
  match s with
  | EmptyString =>
      match tok with Some t => [t] | None => [] end
  | String c s' =>
      if isspace c then
        match tok with
        | Some t => t :: split_from s' None
        | None => split_from s' None
        end
      else
        split_from s'
          (Some (match tok with
                 | Some t => (t ++ String c EmptyString)%string
                 | None => String c EmptyString
                 end))
  end.

Definition split (s : string) : list string := split_from s None.

(** [str(n)] for a non-negative [int]. *)
Definition of_nat (n : nat) : string := NilEmpty.string_of_uint (Nat.to_uint n).

(** [os.path.join(a, b)] for a relative [b]. *)
Definition path_join (a b : string) : string :=
  match a with
  | EmptyString => b
  | _ => if endswith_slash a then (a ++ b)%string else (a ++ "/" ++ b)%string
  end.

End PyStr.

(** ** Python's [float] *)

(** [float_of_str t] is [float(t)]: [None] stands for the [ValueError] of a
    token that is no number.  [div_1e9 x] is [x / 1e9]. *)
Class PyFloat : Type := {
  F : Type;
  float_of_str : string -> option F;
  div_1e9 : F -> F
}.

(** A reference instance on which the model runs: plain decimal literals
    ([-12], [3.02], [.5]) read as exact rationals.  Every other token is
    rejected, so a statement evaluated on this instance only ever relies on
    tokens that Python's [float] converts as well. *)
Module DecimalFloat.

Definition digit_of (c : ascii) : option Z :=
  let n := nat_of_ascii c in
  if (48 <=? n) && (n <=? 57) then Some (Z.of_nat (n - 48)) else None.

Fixpoint digits (s : string) (acc : Z) (scale : positive)
    (frac seen : bool) : option Q :=
  match s with
  | EmptyString => if seen then Some (acc # scale) else None
  | String c s' =>
      if Ascii.eqb c "." then
        if frac then None else digits s' acc scale true seen
      else
        match digit_of c with
        | None => None
        | Some d =>
            digits s' (10 * acc + d)%Z
                   (if frac then (10 * scale)%positive else scale) frac true
        end
  end.

Definition read (s : string) : option Q :=
  match s with
  | String c s' =>
      if Ascii.eqb c "-" then option_map Qopp (digits s' 0%Z 1%positive false false)
      else if Ascii.eqb c "+" then digits s' 0%Z 1%positive false false
      else digits s 0%Z 1%positive false false
  | EmptyString => None
  end.

#[export] Instance decimal : PyFloat :=
  {| F := Q; float_of_str := read; div_1e9 := fun x => (x / 1000000000)%Q |}.

End DecimalFloat.

(** ** Files *)

(** A file system maps a path to the lines of the file there, if any. *)
Definition filesystem : Type := string -> option (list string).

(** [os.path.exists(p)] *)
Definition path_exists (fs : filesystem) (p : string) : bool :=
  match p, fs p with
  | EmptyString, _ => false          (* os.path.exists('') is False *)
  | _, Some _ => true
  | _, None => false
  end.

(** [open(p, 'r')] followed by reading every line. *)
Definition open_lines (fs : filesystem) (p : string) : result (list string) :=
  match p, fs p with
  | EmptyString, _ => Raise FileNotFoundError
  | _, Some ls => Return ls
  | _, None => Raise FileNotFoundError
  end.

(** ** reader_ascii.py *)

Module ReaderAscii.
Section WithFloat.
Context {fl : PyFloat}.

(** One particle line: [np.array(tokens, dtype=float)]. *)
Definition particle : Type := list F.

(** The variable [event] of [parse_event]: [None] before the first
    marker, a list of particles afterwards. *)
Definition event_lines : Type := option (list particle).

(** [np.array(tokens, dtype=float)]: every token is converted, the first
    that is no number raises [ValueError]. *)
Fixpoint np_array_float (tokens : list string) : option particle :=
  match tokens with
  | [] => Some []
  | t :: ts =>
      match float_of_str t with
      | None => None
      | Some x =>
          match np_array_float ts with
          | None => None
          | Some xs => Some (x :: xs)
          end
      end
  end.

Definition is_marker (line : string) : bool := PyStr.startswith line "#".

(** Truth value of [event] in [if event:]: [None] and [[]] are false. *)
Definition truthy (event : event_lines) : bool :=
  match event with
  | None => false
  | Some [] => false
  | Some (_ :: _) => true
  end.

(** The body of [for line in f.readlines()], threaded through the two
    locals [event] and [event_list]. *)
Fixpoint parse_lines (lines : list string) (event : event_lines)
    (event_list : list event_lines) : result (event_lines * list event_lines) :=
  match lines with
  | [] => Return (event, event_list)
  | line :: rest =>
      if is_marker line then
        let event_list' :=
          if truthy event then event_list ++ [event] else event_list in
        parse_lines rest (Some []) event_list'
      else
        match event with
        | None => Raise AttributeError          (* None.append *)
        | Some ev =>
            match np_array_float (PyStr.split (PyStr.rstrip_newline line)) with
            | None => Raise ValueError
            | Some p => parse_lines rest (Some (ev ++ [p])) event_list
            end
        end
  end.

(** [parse_event] on the lines of an opened file. *)
Definition parse_event_lines (lines : list string) : result (list event_lines) :=
  r <- parse_lines lines None [] ;;
  Return (snd r ++ [fst r]).

Definition parse_event (fs : filesystem) (input_file : string)
  : result (list event_lines) :=
  lines <- open_lines fs input_file ;;
  parse_event_lines lines.

(** *** The event handed to the analysis *)

(** The second argument [next_event] passes to [EventAscii]: the empty
    string, or the partons of the block. *)
Inductive partons_arg : Type :=
| NoPartons                                   (* '' *)
| Partons (event_partons : event_lines).

(** Modelled from the spec: the class [EventAscii] of the module
    [event.event_ascii] is not part of the sources; an event holds the
    hadrons of one block and the partons that came with them. *)
Record EventAscii : Type := {
  hadrons : event_lines;
  partons : partons_arg
}.

(** *** The reader object *)
Record reader : Type := {
  event_list_hadrons : list event_lines;
  current_event : nat;
  n_events : nat;
  event_list_partons : option (list event_lines)
}.

Definition count_mismatch_message (nh np : nat) : string :=
  ("Final state partons has " ++ PyStr.of_nat nh
     ++ " events, but partons has " ++ PyStr.of_nat np ++ ".")%string.

Definition exhausted_message (cur n : nat) : string :=
  ("Current event " ++ PyStr.of_nat cur
     ++ " greater than total n_events " ++ PyStr.of_nat n)%string.

(** [ReaderAscii.__init__] *)
Definition init (fs : filesystem) (input_file_hadrons input_file_partons : string)
  : result reader :=
  hs <- parse_event fs input_file_hadrons ;;
  ps <- (if path_exists fs input_file_partons
         then l <- parse_event fs input_file_partons ;; Return (Some l)
         else Return None) ;;
  let self := {| event_list_hadrons := hs;
                 current_event := 0;
                 n_events := length hs;
                 event_list_partons := ps |} in
  if path_exists fs input_file_hadrons && path_exists fs input_file_partons then
    match ps with
    | None => Raise TypeError                  (* len(None) *)
    | Some pl =>
        if negb (length hs =? length pl)
        then Raise (SystemExit (count_mismatch_message (length hs) (length pl)))
        else Return self
    end
  else Return self.

(** Truth value of [self.event_list_partons]. *)
Definition partons_loaded (ps : option (list event_lines)) : bool :=
  match ps with
  | None => false
  | Some [] => false
  | Some (_ :: _) => true
  end.

(** [self.current_event += 1] *)
Definition advance (self : reader) : reader :=
  {| event_list_hadrons := event_list_hadrons self;
     current_event := current_event self + 1;
     n_events := n_events self;
     event_list_partons := event_list_partons self |}.

(** [lst[i]] for [i >= 0] *)
Definition getitem {A : Type} (l : list A) (i : nat) : result A :=
  match nth_error l i with
  | Some a => Return a
  | None => Raise IndexError
  end.

(** [next_event]: the result and the reader afterwards. *)
Definition next_event (self : reader) : result EventAscii * reader :=
  if current_event self <? n_events self then
    let self' := advance self in
    (event_hadrons <- getitem (event_list_hadrons self') (current_event self' - 1) ;;
     event_partons <-
       (if partons_loaded (event_list_partons self') then
          match event_list_partons self' with
          | Some pl =>
              e <- getitem pl (current_event self' - 1) ;; Return (Partons e)
          | None => Return NoPartons
          end
        else Return NoPartons) ;;
     Return {| hadrons := event_hadrons; partons := event_partons |},
     self')
  else
    (Raise (SystemExit (exhausted_message (current_event self) (n_events self))),
     self).

(** [k] successive calls of [next_event]: the events returned, in order. *)
Fixpoint next_events (k : nat) (self : reader) : result (list EventAscii) :=
  match k with
  | 0 => Return []
  | S k' =>
      match next_event self with
      | (Return e, self') => es <- next_events k' self' ;; Return (e :: es)
      | (Raise x, _) => Raise x
      end
  end.

(** *** What the design document says about a block file

    These follow the document's words, not the code: an event is what
    stands between a block-start marker and the next one. *)

Definition count_markers (lines : list string) : nat :=
  length (filter is_marker lines).

(** Non-marker lines up to the next marker or the end of the file. *)
Fixpoint lines_until_marker (lines : list string) : nat :=
  match lines with
  | [] => 0
  | l :: rest => if is_marker l then 0 else S (lines_until_marker rest)
  end.

(** For each marker, in order, the number of non-marker lines after it. *)
Fixpoint block_sizes (lines : list string) : list nat :=
  match lines with
  | [] => []
  | l :: rest =>
      if is_marker l then lines_until_marker rest :: block_sizes rest
      else block_sizes rest
  end.

(** A particle line is one whose tokens all convert. *)
Definition converts (line : string) : bool :=
  match np_array_float (PyStr.split (PyStr.rstrip_newline line)) with
  | Some _ => true
  | None => false
  end.

Definition line_ok (line : string) : bool := is_marker line || converts line.

Definition starts_with_marker (lines : list string) : bool :=
  match lines with
  | [] => false
  | l :: _ => is_marker l
  end.

(** Well-formed tagged-block input: a marker first, then markers and
    particle lines. *)
Definition well_formed (lines : list string) : bool :=
  starts_with_marker lines && forallb line_ok lines.

(** The files [parse_event] reads to the end: empty, or well-formed. *)
Definition parses (lines : list string) : bool :=
  match lines with
  | [] => true
  | l :: _ => is_marker l
  end && forallb line_ok lines.

(** No block but the last is empty. *)
Definition inner_blocks_nonempty (lines : list string) : bool :=
  forallb (fun n => 0 <? n) (removelast (block_sizes lines)).

(** Some block before the last is empty: two markers in a row. *)
Definition has_empty_inner_block (lines : list string) : bool :=
  existsb (fun n => n =? 0) (removelast (block_sizes lines)).

Definition particle_count (e : event_lines) : option nat := option_map (@length _) e.

(** The blocks [parse_event] keeps: the non-empty ones, and the last. *)
Definition kept (sizes : list nat) : list nat :=
  filter (fun n => 0 <? n) (removelast sizes) ++ [last sizes 0].

(** The event [next_event] builds at ordinal [i]. *)
Definition event_at (hs : list event_lines) (ps : option (list event_lines))
    (i : nat) : EventAscii :=
  {| hadrons := nth i hs None;
     partons := if partons_loaded ps then
                  match ps with
                  | Some pl => Partons (nth i pl None)
                  | None => NoPartons
                  end
                else NoPartons |}.

(** A reader with hadrons [hs] and partons [ps] before its first event,
    and after [c] events. *)
Definition fresh (hs : list event_lines) (ps : option (list event_lines)) : reader :=
  {| event_list_hadrons := hs; current_event := 0;
     n_events := length hs; event_list_partons := ps |}.

Definition at_position (c : nat) (hs : list event_lines)
    (ps : option (list event_lines)) : reader :=
  {| event_list_hadrons := hs; current_event := c;
     n_events := length hs; event_list_partons := ps |}.

Definition hadrons_only (e : event_lines) : EventAscii :=
  {| hadrons := e; partons := NoPartons |}.

Definition paired (hp : event_lines * event_lines) : EventAscii :=
  {| hadrons := fst hp; partons := Partons (snd hp) |}.

(** The design document's property of a block file, as it is written:
    the reader yields as many events as the file has markers, and the
    particles of each are the non-marker lines of its block. *)
Definition yields_blocks (fs : filesystem) (input_file : string)
    (lines : list string) : Prop :=
  exists r es,
    init fs input_file "" = Return r /\
    n_events r = count_markers lines /\
    next_events (count_markers lines) r = Return es /\
    length es = count_markers lines /\
    map (fun e => particle_count (hadrons e)) es = map Some (block_sizes lines).

End WithFloat.
End ReaderAscii.

(** ** The reader interface *)

Module ReaderBase.

(** Modelled from the spec: the base class [reader_base.ReaderBase] is not
    part of the sources.  Calling a reader with a maximum event count
    produces a finite, lazy sequence: at most [n_events] times the reader
    is asked for its next event and the answer is yielded.  The sequence
    is represented by what it yields before it ends, and the exception
    that ends it, if one does. *)
Fixpoint call {R E : Type} (next_event : R -> result E * R)
    (n_events : nat) (self : R) : list E * option exn :=
  match n_events with
  | 0 => ([], None)
  | S n =>
      match next_event self with
      | (Return e, self') =>
          let (es, x) := call next_event n self' in (e :: es, x)
      | (Raise x, _) => ([], Some x)
      end
  end.

End ReaderBase.

Module ReaderHepMC.
Section WithFormat.
(** Modelled from the spec: the module [reader_hepmc] is not part of the
    sources, and the document does not give the HepMC syntax.  The events
    of a file are what [read_events] makes of its lines; the reader hands
    them out in file order and answers [False] once they are used up. *)
Variable HepMCEvent : Type.
Variable read_events : list string -> result (list HepMCEvent).

Record reader : Type := {
  events : list HepMCEvent;
  position : nat
}.

Definition init (fs : filesystem) (input_file : string) : result reader :=
  lines <- open_lines fs input_file ;;
  es <- read_events lines ;;
  Return {| events := es; position := 0 |}.

Definition next_event (self : reader) : result (option HepMCEvent) * reader :=
  match nth_error (events self) (position self) with
  | Some e => (Return (Some e), {| events := events self; position := S (position self) |})
  | None => (Return None, self)
  end.

End WithFormat.

Arguments events {HepMCEvent} _.
Arguments position {HepMCEvent} _.
Arguments init {HepMCEvent} read_events fs input_file.
Arguments next_event {HepMCEvent} self.

End ReaderHepMC.

(** ** analyze_events_base.py *)

Module Driver.

(** A scalar of the YAML configuration. *)
Inductive yaml_scalar : Type :=
| YInt (z : Z)
| YStr (s : string).

(** [str(value)] *)
Definition str (v : yaml_scalar) : string :=
  match v with
  | YInt z => NilEmpty.string_of_int (Z.to_int z)
  | YStr s => s
  end.

(** One entry of [parameter_scan]: [{label: ..., values: [...]}]. *)
Record scan_axis : Type := {
  label : string;
  values : list yaml_scalar
}.

(** The configuration file, as [yaml.safe_load] returns it.  A mapping
    keeps the order of the file. *)
Record config : Type := {
  parameter_scan : list (string * scan_axis);
  debug_level : nat;
  n_event_max : nat;
  reader : string;
  progress_bar : bool;
  scale_histograms : bool;
  merge_histograms : bool
}.

(** [d[key]] *)
Fixpoint lookup {A : Type} (d : list (string * A)) (key : string) : result A :=
  match d with
  | [] => Raise KeyError
  | (k, a) :: d' => if String.eqb k key then Return a else lookup d' key
  end.

(** [itertools.product] of the lists: the first list varies slowest. *)
Fixpoint product {A : Type} (lists : list (list A)) : list (list A) :=
  match lists with
  | [] => [[]]
  | l :: rest => flat_map (fun x => map (cons x) (product rest)) l
  end.

(** [l[:-n]] *)
Definition drop_last {A : Type} (n : nat) (l : list A) : list A :=
  match n with
  | 0 => []                                   (* l[:-0] is l[:0] *)
  | _ => firstn (length l - n) l
  end.

(** [enumerate(l)] *)
Definition enumerate {A : Type} (l : list A) : list (nat * A) :=
  combine (seq 0 (length l)) l.

(** The label of the output directory, built by the inner loop over the
    combination. *)
Fixpoint dir_label_from (index : nat) (parameter_labels : list string)
    (pt_hat_bin : nat) (combination : list yaml_scalar) (dir_label : string)
  : string :=
  match combination with
  | [] => dir_label
  | value :: rest =>
      let dir_label' :=
        if index =? 0 then (dir_label ++ PyStr.of_nat pt_hat_bin)%string
        else (((dir_label ++ "_") ++ nth index parameter_labels "") ++ str value)%string in
      dir_label_from (S index) parameter_labels pt_hat_bin rest dir_label'
  end.

Definition make_dir_label (parameter_labels : list string) (pt_hat_bin : nat)
    (combination : list yaml_scalar) : string :=
  dir_label_from 0 parameter_labels pt_hat_bin combination "".

(** What the members set by [initialize_config] and the first lines of
    [analyze_jetscape_events] hold. *)
Record grid : Type := {
  parameter_labels : list string;
  pt_hat_bins : list yaml_scalar;
  n_combinations_per_pthat : nat;
  parameter_combinations : list (list yaml_scalar)
}.

(** [int(len(...) / len(...))] is the quotient of the two lengths (the
    first is a multiple of the second whenever the pt-hat axis is one of the
    axes); with no pt-hat edge the division raises.  When the quotient is
    zero no combination is left and the loop body never divides by it. *)
Definition make_grid (cfg : config) : result grid :=
  pt <- lookup (parameter_scan cfg) "pt_hat_bins" ;;
  let labels := map (fun kv => label (snd kv)) (parameter_scan cfg) in
  let vals := map (fun kv => values (snd kv)) (parameter_scan cfg) in
  let combos := product vals in
  match length (values pt) with
  | 0 => Raise ZeroDivisionError
  | S _ =>
      let n := length combos / length (values pt) in
      Return {| parameter_labels := labels;
                pt_hat_bins := values pt;
                n_combinations_per_pthat := n;
                parameter_combinations := drop_last n combos |}
  end.

(** The head of the loop body: the pt-hat bin of the combination at
    [index] and its directory label, or [None] where the loop continues
    with the next combination. *)
Definition grid_point (g : grid) (index : nat) (combination : list yaml_scalar)
  : option (nat * string) :=
  let pt_hat_bin := index / n_combinations_per_pthat g in
  if pt_hat_bin <? length (pt_hat_bins g) - 1 then
    Some (pt_hat_bin, make_dir_label (parameter_labels g) pt_hat_bin combination)
  else None.

(** The same for a combination that is not skipped. *)
Definition point_of (g : grid) (ic : nat * list yaml_scalar) : nat * string :=
  let pt_hat_bin := fst ic / n_combinations_per_pthat g in
  (pt_hat_bin, make_dir_label (parameter_labels g) pt_hat_bin (snd ic)).

(** The grid points the loop processes, in order. *)
Definition grid_points (g : grid) : list (nat * string) :=
  flat_map (fun ic => match grid_point g (fst ic) (snd ic) with
                      | Some p => [p]
                      | None => []
                      end)
           (enumerate (parameter_combinations g)).

Section WithAnalysis.
Context {fl : PyFloat}.

(** The HepMC side (see [ReaderHepMC]). *)
Variable HepMCEvent : Type.
Variable read_events : list string -> result (list HepMCEvent).

(** What [self.reader] holds. *)
Inductive any_reader : Type :=
| Ascii (r : ReaderAscii.reader)
| HepMC (r : ReaderHepMC.reader HepMCEvent).

(** What the reader's sequence yields. *)
Inductive py_event : Type :=
| EventAscii (e : ReaderAscii.EventAscii)
| EventHepMC (e : HepMCEvent)
| PyFalse.

(** Modelled from the spec: the event classes are not part of the sources.
    In [not event] an event object counts as true; the sentinel that ends
    a stream is false. *)
Definition is_falsy (event : py_event) : bool :=
  match event with
  | PyFalse => true
  | _ => false
  end.

(** The two hooks a subclass implements, acting on its own output
    objects [U].  In the base class both raise [NotImplementedError]. *)
Variable U : Type.
Variable initialize_user_output_objects : result U.
Variable analyze_event : py_event -> U -> result U.

Definition reader_next (r : any_reader) : result py_event * any_reader :=
  match r with
  | Ascii a =>
      match ReaderAscii.next_event a with
      | (Return e, a') => (Return (EventAscii e), Ascii a')
      | (Raise x, a') => (Raise x, Ascii a')
      end
  | HepMC h =>
      match ReaderHepMC.next_event h with
      | (Return (Some e), h') => (Return (EventHepMC e), HepMC h')
      | (Return None, h') => (Return PyFalse, HepMC h')
      | (Raise x, h') => (Raise x, HepMC h')
      end
  end.

(** A value of Python: what [cross_section] may return. *)
Inductive pyval : Type :=
| PyFloatV (x : F)
| PyStrV (s : string).

(** The file [AnalysisResults.root] of one bin: the two event histograms,
    each with the one bin that was set and its content, and the objects
    of the subclass. *)
Record output_file : Type := {
  path : string;
  hNevents : nat * nat;
  hCrossSection : nat * F;
  user_objects : U
}.

(** The members of the driver that change while it runs. *)
Record driver : Type := {
  event_id : nat;
  written : list output_file
}.

(** [self.reader_type]: the configured ['ascii'] is renamed ['dat']. *)
Definition reader_type (cfg : config) : string :=
  if String.eqb (reader cfg) "ascii" then "dat" else reader cfg.

(** The driver as [initialize_config] leaves it: [event_id] is set to zero
    here, once for the whole run. *)
Definition initialize_config : driver :=
  {| event_id := 0; written := [] |}.

(** [get_event_info] *)
Definition get_event_info (self : driver) : driver :=
  {| event_id := event_id self + 1; written := written self |}.

(** The loop of [cross_section] over the lines of the file. *)
Fixpoint cross_section_lines (rtype : string) (lines : list string)
    (cross_sections : list pyval) : result (list pyval) :=
  match lines with
  | [] => Return cross_sections
  | line :: rest =>
      if String.eqb rtype "hepmc" then
        if PyStr.contains "GenCrossSection" line then
          tok <- ReaderAscii.getitem (PyStr.split line) 3 ;;
          match float_of_str tok with
          | None => Raise ValueError
          | Some x =>
              let xsec := div_1e9 x in
              cross_section_lines rtype rest (cross_sections ++ [PyFloatV xsec])
          end
        else cross_section_lines rtype rest cross_sections
      else if String.eqb rtype "dat" then
        if PyStr.contains "sigmaGen" line then
          tok <- ReaderAscii.getitem (PyStr.split line) 2 ;;
          match float_of_str tok with
          | None => Raise ValueError
          | Some _ =>                          (* xsec is computed, the line is stored *)
              cross_section_lines rtype rest (cross_sections ++ [PyStrV line])
          end
        else cross_section_lines rtype rest cross_sections
      else cross_section_lines rtype rest cross_sections
  end.

(** The lines the loop takes a cross section from. *)
Definition metadata_line (rtype line : string) : bool :=
  if String.eqb rtype "hepmc" then PyStr.contains "GenCrossSection" line
  else if String.eqb rtype "dat" then PyStr.contains "sigmaGen" line
  else false.

(** What the ASCII branch stores for a cross-section line. *)
Definition stored_line (v : pyval) : Prop :=
  exists line, v = PyStrV line /\ PyStr.contains "sigmaGen" line = true.

(** [cross_sections[-1]] *)
Definition last_item {A : Type} (l : list A) : result A :=
  match rev l with
  | [] => Raise IndexError
  | a :: _ => Return a
  end.

Definition cross_section (fs : filesystem) (rtype input_file : string)
  : result pyval :=
  lines <- open_lines fs input_file ;;
  cross_sections <- cross_section_lines rtype lines [] ;;
  last_item cross_sections.

(** [TH1.SetBinContent(bin, content)] takes a number; a [str] is refused. *)
Definition as_double (v : pyval) : result F :=
  match v with
  | PyFloatV x => Return x
  | PyStrV _ => Raise TypeError
  end.

(** [write_output_objects] *)
Definition write_output_objects (fs : filesystem) (rtype input_file : string)
    (output_dir_bin : string) (pt_hat_bin : nat) (u : U) (self : driver)
  : result driver :=
  xsec <- cross_section fs rtype input_file ;;
  x <- as_double xsec ;;
  let outputfilename := PyStr.path_join output_dir_bin "AnalysisResults.root" in
  Return {| event_id := event_id self;
            written := written self ++
              [{| path := outputfilename;
                  hNevents := (pt_hat_bin + 1, event_id self);
                  hCrossSection := (pt_hat_bin + 1, x);
                  user_objects := u |}] |}.

(** The loop over the events the reader yields. *)
Fixpoint event_loop (yielded : list py_event) (ending : option exn)
    (u : U) (self : driver) : result (U * driver) :=
  match yielded with
  | [] =>
      match ending with
      | Some x => Raise x
      | None => Return (u, self)
      end
  | event :: rest =>
      if is_falsy event then Return (u, self)            (* break *)
      else
        let self' := get_event_info self in
        u' <- analyze_event event u ;;
        event_loop rest ending u' self'
  end.

(** The reader [run_jetscape_analysis] creates; none for a reader type
    that is neither of the two. *)
Definition open_reader (fs : filesystem) (rtype input_file : string)
  : result (option any_reader) :=
  if String.eqb rtype "hepmc" then
    r <- ReaderHepMC.init read_events fs input_file ;; Return (Some (HepMC r))
  else if String.eqb rtype "dat" then
    r <- ReaderAscii.init fs input_file "" ;; Return (Some (Ascii r))
  else Return None.

(** [run_jetscape_analysis] *)
Definition run_jetscape_analysis (fs : filesystem) (cfg : config)
    (input_file output_dir_bin : string) (pt_hat_bin : nat) (self : driver)
  : result driver :=
  let rtype := reader_type cfg in
  rd <- open_reader fs rtype input_file ;;
  u <- initialize_user_output_objects ;;
  match rd with
  | None => Raise AttributeError                  (* self.reader was never set *)
  | Some r =>
      let (yielded, ending) := ReaderBase.call reader_next (n_event_max cfg) r in
      us <- event_loop yielded ending u self ;;
      write_output_objects fs rtype input_file output_dir_bin pt_hat_bin (fst us) (snd us)
  end.

Definition with_slash (dir : string) : string :=
  if PyStr.endswith_slash dir then dir else (dir ++ "/")%string.

(** The rest of the loop body, for a combination that is not skipped.
    The scaler works on the file written and is outside this model. *)
Definition process_grid_point (fs : filesystem) (cfg : config)
    (input_dir output_dir : string) (point : nat * string) (self : driver)
  : result driver :=
  let (pt_hat_bin, dir_label) := point in
  let output_dir_bin := with_slash (output_dir ++ dir_label) in
  let input_dir_bin := (input_dir ++ dir_label)%string in
  let input_file :=
    PyStr.path_join input_dir_bin ("test_out." ++ reader_type cfg) in
  run_jetscape_analysis fs cfg input_file output_dir_bin pt_hat_bin self.

(** The loop of [analyze_jetscape_events] over the enumerated
    combinations. *)
Fixpoint grid_loop (fs : filesystem) (cfg : config) (g : grid)
    (input_dir output_dir : string)
    (combinations : list (nat * list yaml_scalar)) (self : driver)
  : result driver :=
  match combinations with
  | [] => Return self
  | (index, combination) :: rest =>
      match grid_point g index combination with
      | None => grid_loop fs cfg g input_dir output_dir rest self
      | Some point =>
          self' <- process_grid_point fs cfg input_dir output_dir point self ;;
          grid_loop fs cfg g input_dir output_dir rest self'
      end
  end.

(** The bins of a list of grid points, one after the other. *)
Fixpoint process_all (fs : filesystem) (cfg : config)
    (input_dir output_dir : string) (points : list (nat * string)) (self : driver)
  : result driver :=
  match points with
  | [] => Return self
  | point :: rest =>
      self' <- process_grid_point fs cfg input_dir output_dir point self ;;
      process_all fs cfg input_dir output_dir rest self'
  end.

(** The constructor followed by [analyze_jetscape_events]. *)
Definition analyze_jetscape_events (fs : filesystem) (cfg : config)
    (input_dir output_dir : string) : result driver :=
  g <- make_grid cfg ;;
  grid_loop fs cfg g (with_slash input_dir) (with_slash output_dir)
            (enumerate (parameter_combinations g)) initialize_config.

(** The events one bin iterates: those the reader yields before the
    sentinel or the configured maximum. *)
Fixpoint iterated (yielded : list py_event) : nat :=
  match yielded with
  | [] => 0
  | event :: rest => if is_falsy event then 0 else S (iterated rest)
  end.

End WithAnalysis.

Arguments EventAscii {fl HepMCEvent} e.
Arguments EventHepMC {fl HepMCEvent} e.
Arguments PyFalse {fl HepMCEvent}.
Arguments Ascii {fl HepMCEvent} r.
Arguments HepMC {fl HepMCEvent} r.
Arguments is_falsy {fl HepMCEvent} event.
Arguments iterated {fl HepMCEvent} yielded.
Arguments reader_next {fl HepMCEvent} r.
Arguments path {fl U} _.
Arguments hNevents {fl U} _.
Arguments hCrossSection {fl U} _.
Arguments user_objects {fl U} _.
Arguments event_id {fl U} _.
Arguments written {fl U} _.
Arguments initialize_config {fl U}.
Arguments get_event_info {fl U} self.
Arguments event_loop {fl HepMCEvent U} analyze_event yielded ending u self.
Arguments write_output_objects {fl U} fs rtype input_file output_dir_bin pt_hat_bin u self.
Arguments open_reader {fl HepMCEvent} read_events fs rtype input_file.
Arguments run_jetscape_analysis {fl HepMCEvent} read_events {U}
  initialize_user_output_objects analyze_event fs cfg input_file output_dir_bin
  pt_hat_bin self.
Arguments process_grid_point {fl HepMCEvent} read_events {U}
  initialize_user_output_objects analyze_event fs cfg input_dir output_dir point self.
Arguments grid_loop {fl HepMCEvent} read_events {U}
  initialize_user_output_objects analyze_event fs cfg g input_dir output_dir
  combinations self.
Arguments process_all {fl HepMCEvent} read_events {U}
  initialize_user_output_objects analyze_event fs cfg input_dir output_dir points self.
Arguments analyze_jetscape_events {fl HepMCEvent} read_events {U}
  initialize_user_output_objects analyze_event fs cfg input_dir output_dir.

(** A configuration whose pt-hat axis comes first. *)
Definition scan_config (pt_label : string) (edges : list yaml_scalar)
    (aux : list (string * scan_axis)) (n_max : nat) (rd : string) : config :=
  {| parameter_scan :=
       ("pt_hat_bins", {| label := pt_label; values := edges |}) :: aux;
     debug_level := 0;
     n_event_max := n_max;
     reader := rd;
     progress_bar := false;
     scale_histograms := false;
     merge_histograms := false |}.


End Driver.

(** ** Inputs on which the model is run *)

Module Examples.
Import DecimalFloat.

Definition line (s : string) : string := String.append s (String PyStr.newline "").

(** A file system with one file. *)
Definition one_file (path : string) (lines : list string) : filesystem :=
  fun p => if String.eqb p path then Some lines else None.

(** A file system with two files. *)
Definition two_files (p1 : string) (l1 : list string)
    (p2 : string) (l2 : list string) : filesystem :=
  fun p => if String.eqb p p1 then Some l1
           else if String.eqb p p2 then Some l2 else None.

(** Two events of two and one particles. *)
Definition hadrons_file : list string :=
  [line "# Event 1"; line "1 211 0 1.5 0.2 0.3 1.4"; line "2 -211 0 2.5 0.1 0.4 2.4";
   line "# Event 2"; line "1 2212 0 7.25 1.0 2.0 6.5"].

(** Two events of one particle each. *)
Definition partons_file : list string :=
  [line "# Event 1"; line "1 21 0 4.0 0.3 0.7 3.8";
   line "# Event 2"; line "1 2 0 7.5 1.0 2.0 6.5"].

(** Particle lines and no marker. *)
Definition unmarked_file : list string := [line "1 211 0 1.5 0.2 0.3 1.4"].

(** Two markers in a row: the first event has no particle. *)
Definition empty_event_file : list string :=
  [line "# Event 1"; line "# Event 2"; line "1 211 0 1.5 0.2 0.3 1.4"].

(** What [parse_event] makes of the two files. *)
Definition hadrons_events : list ReaderAscii.event_lines :=
  Eval vm_compute in
    match ReaderAscii.parse_event_lines hadrons_file with
    | Return l => l
    | Raise _ => []
    end.

Definition partons_events : list ReaderAscii.event_lines :=
  Eval vm_compute in
    match ReaderAscii.parse_event_lines partons_file with
    | Return l => l
    | Raise _ => []
    end.

Definition fs_hadrons : filesystem := one_file "test_out.dat" hadrons_file.

Definition fs_both : filesystem :=
  two_files "test_out.dat" hadrons_file "partons.dat" partons_file.

(** A partons file that [parse_event] reads as one event. *)
Definition fs_unequal : filesystem :=
  two_files "test_out.dat" hadrons_file "partons.dat" empty_event_file.

(** Forty events of one particle each. *)
Definition forty_events_file : list string :=
  concat (repeat [line "# Event"; line "1 211 0 1.5 0.2 0.3 1.4"] 40).

Definition forty_events : list ReaderAscii.event_lines :=
  Eval vm_compute in
    match ReaderAscii.parse_event_lines forty_events_file with
    | Return l => l
    | Raise _ => []
    end.

(** What [parse_event] makes of [empty_event_file]. *)
Definition one_event : list ReaderAscii.event_lines :=
  Eval vm_compute in
    match ReaderAscii.parse_event_lines empty_event_file with
    | Return l => l
    | Raise _ => []
    end.

(** *** The driver *)

(** A stand-in for the HepMC syntax: an event is a line that starts with
    [E]. *)
Definition read_event_records (lines : list string) : result (list string) :=
  Return (filter (fun l => PyStr.startswith l "E ") lines).

(** Two events, and the generator's cross section reported three times. *)
Definition hepmc_file : list string :=
  [line "E 1 0 0"; line "A 0 GenCrossSection 3100000000 1";
   line "P 1 0 211 1.5 0.2 0.3 1.4";
   line "E 2 0 0"; line "A 0 GenCrossSection 3050000000 1";
   line "P 1 0 211 2.5 0.1 0.4 2.4";
   line "A 0 GenCrossSection 3020000000 1"].

(** The same three reports in the ASCII format. *)
Definition dat_file : list string :=
  [line "# Event 1"; line "1 211 0 1.5 0.2 0.3 1.4";
   line "# sigmaGen 3.1 sigmaErr 0.2";
   line "# Event 2"; line "1 -211 0 2.5 0.1 0.4 2.4";
   line "# sigmaGen 3.05 sigmaErr 0.1";
   line "# sigmaGen 3.02 sigmaErr 0.05"].

(** Pt-hat edges 10, 20, 30 and nothing else: two bins, each with the
    two events of [hepmc_file]. *)
Definition two_bins : Driver.config :=
  Driver.scan_config "pt_hat_bins" [Driver.YInt 10; Driver.YInt 20; Driver.YInt 30]
    [] 2 "hepmc".

Definition fs_two_bins : filesystem :=
  two_files "in/0/test_out.hepmc" hepmc_file "in/1/test_out.hepmc" hepmc_file.



(** An analysis that keeps nothing. *)
Definition no_objects : result unit := Return tt.
Definition ignore_event {E : Type} (e : E) (u : unit) : result unit := Return u.

End Examples.

(** ** Further notions the properties below are stated with *)

Module ReaderTerms.
Section WithFloat.
Context {fl : PyFloat}.
Import ReaderAscii.

(** The file has a first line and it is no marker. *)
Definition starts_unmarked (lines : list string) : bool :=
  match lines with
  | [] => false
  | l :: _ => negb (is_marker l)
  end.

(** Both files were read and hold as many events. *)
Definition same_length (hs ps : result (list event_lines)) : bool :=
  match hs, ps with
  | Return h, Return p => length h =? length p
  | _, _ => false
  end.

(** The blocks of a file that hold at least one line, the last block left
    aside. *)
Definition nonempty_inner_blocks (lines : list string) : nat :=
  length (filter (fun n => 0 <? n) (removelast (block_sizes lines))).

End WithFloat.
End ReaderTerms.



Module DriverTerms.
Section WithFloat.
Context {fl : PyFloat}.
Import Driver.

(** The input file and the output directory [analyze_jetscape_events]
    derives for a grid point with the label [dir_label]. *)
Definition bin_input_file (cfg : config) (input_dir dir_label : string) : string :=
  PyStr.path_join (input_dir ++ dir_label) ("test_out." ++ reader_type cfg).

Definition bin_output_dir (output_dir dir_label : string) : string :=
  with_slash (output_dir ++ dir_label).

(** The number of combinations of the value lists. *)
Definition lengths_product (lists : list (list yaml_scalar)) : nat :=
  fold_right (fun l n => length l * n) 1 lists.

(** The part of a directory label after the bin: for each further axis,
    an underscore, the label of the axis and the value. *)
Fixpoint label_suffix (labels : list string) (vals : list yaml_scalar) : string :=
  match labels, vals with
  | l :: ls, v :: vs => ("_" ++ l ++ str v ++ label_suffix ls vs)%string
  | _, _ => EmptyString
  end.

(** Each number is at least the one before it, the first at least [lo]. *)
Fixpoint ascending_from (lo : nat) (l : list nat) : Prop :=
  match l with
  | [] => True
  | x :: t => lo <= x /\ ascending_from x t
  end.

(** The position of the cross section among the tokens of its line. *)
Definition value_index (rtype : string) : nat :=
  if String.eqb rtype "hepmc" then 3 else 2.

(** No entry of the mapping has the key. *)
Definition lacks_key {A : Type} (d : list (string * A)) (key : string) : bool :=
  forallb (fun kv => negb (String.eqb (fst kv) key)) d.

Section WithHook.
Variable HepMCEvent : Type.
Variable U : Type.
Variable analyze_event : py_event HepMCEvent -> U -> result U.

(** The hook applied to the events of a list, in order. *)
Fixpoint analyze_all (events : list (py_event HepMCEvent)) (u : U) : result U :=
  match events with
  | [] => Return u
  | event :: rest => u' <- analyze_event event u ;; analyze_all rest u'
  end.

(** A driver after [n] more events. *)
Definition counted (n : nat) (self : driver U) : driver U :=
  {| event_id := event_id self + n; written := written self |}.

End WithHook.
End WithFloat.

Arguments analyze_all {fl HepMCEvent U} analyze_event events u.
Arguments counted {fl U} n self.

End DriverTerms.

Module MoreExamples.
Import Examples DecimalFloat.

(** A token that is no number in the second line. *)
Definition bad_token_file : list string :=
  [line "# Event 1"; line "1 211 0 1.5 abc 0.3 1.4"].

(** One event of one particle. *)
Definition one_block_file : list string :=
  [line "# Event 1"; line "1 21 0 4.0 0.3 0.7 3.8"].

(** The line JETSCAPE ends a file with. *)
Definition trailer : string := line "# sigmaGen 3.02 sigmaErr 0.05".

(** A reader type the driver does not know. *)
Definition root_reader : Driver.config :=
  Driver.scan_config "pt_hat_bins" [Driver.YInt 10; Driver.YInt 20; Driver.YInt 30]
    [] 5 "root".

(** A scan without the pt-hat axis, and one whose pt-hat axis has no edge. *)
Definition no_pt_hat : Driver.config :=
  {| Driver.parameter_scan :=
       [("alpha_s", {| Driver.label := "alphas";
                       Driver.values := [Driver.YStr "A"; Driver.YStr "B"] |})];
     Driver.debug_level := 0; Driver.n_event_max := 5; Driver.reader := "hepmc";
     Driver.progress_bar := false; Driver.scale_histograms := false;
     Driver.merge_histograms := false |}.

Definition no_edges : Driver.config :=
  Driver.scan_config "pt_hat_bins" [] [] 5 "hepmc".


(** A file system without files. *)
Definition no_files : filesystem := fun _ => None.

(** The pt-hat axis after another axis. *)
Definition aux_first : Driver.config :=
  {| Driver.parameter_scan :=
       [("alpha_s", {| Driver.label := "alphas";
                       Driver.values := [Driver.YStr "A"; Driver.YStr "B"] |});
        ("pt_hat_bins", {| Driver.label := "pt_hat_bins";
                           Driver.values := [Driver.YInt 10; Driver.YInt 20; Driver.YInt 30] |})];
     Driver.debug_level := 0; Driver.n_event_max := 5; Driver.reader := "hepmc";
     Driver.progress_bar := false; Driver.scale_histograms := false;
     Driver.merge_histograms := false |}.

(** The input of the first of the two bins only. *)
Definition fs_first_bin_only : filesystem :=
  one_file "in/0/test_out.hepmc" hepmc_file.

(** The grid of [two_bins], and what the run over it leaves. *)
Definition two_bins_grid : Driver.grid :=
  Eval vm_compute in
    match Driver.make_grid two_bins with
    | Return g => g
    | Raise _ => {| Driver.parameter_labels := []; Driver.pt_hat_bins := [];
                    Driver.n_combinations_per_pthat := 0;
                    Driver.parameter_combinations := [] |}
    end.

Definition two_bins_result : Driver.driver unit :=
  Eval vm_compute in
    match Driver.analyze_jetscape_events read_event_records no_objects ignore_event
            fs_two_bins two_bins "in" "out" with
    | Return d => d
    | Raise _ => Driver.initialize_config
    end.

(** The driver after the first of the two bins. *)
Definition after_first_bin : Driver.driver unit :=
  Eval vm_compute in
    match Driver.process_all read_event_records no_objects ignore_event
            fs_first_bin_only two_bins "in/" "out/" [(0, "0")] Driver.initialize_config with
    | Return d => d
    | Raise _ => Driver.initialize_config
    end.

(** A report without its value, before a report that is complete. *)
Definition short_report_file : list string :=
  [line "# Event 1"; line "1 211 0 1.5 0.2 0.3 1.4";
   line "# sigmaGen"; line "# sigmaGen 3.02 sigmaErr 0.05"].

(** Two events, the sentinel, and an event after it. *)
Definition yielded_events : list (Driver.py_event string) :=
  [Driver.EventHepMC "E 1 0 0"; Driver.EventHepMC "E 2 0 0"].

(** An analysis that counts the events it is given. *)
Definition count_event {E : Type} (e : E) (n : nat) : result nat := Return (S n).

End MoreExamples.

(** * Properties *)

(** ** [parse_event] *)

Section ParseEvent.
Context {fl : PyFloat}.
Import ReaderAscii.

Lemma parse_lines_returns (lines : list string) :
  forall event event_list,
    returns (parse_lines lines event event_list) =
    match event, lines with
    | None, l :: _ => is_marker l
    | _, _ => true
    end && forallb line_ok lines.
Proof.
  induction lines as [|l rest IH]; intros event event_list; simpl.
  - now destruct event.
  - unfold line_ok, converts.
    destruct (is_marker l) eqn:Hm; simpl.
    + rewrite IH. now destruct event.
    + destruct event as [ev|]; [|reflexivity].
      destruct (np_array_float _); [|reflexivity].
      now rewrite IH.
Qed.

Lemma parse_event_lines_returns (lines : list string) :
  returns (parse_event_lines lines) = parses lines.
Proof.
  unfold parse_event_lines, parses.
  pose proof (parse_lines_returns lines None []) as H.
  destruct (parse_lines lines None []); simpl in *; rewrite <- H; reflexivity.
Qed.

Lemma parse_event_lines_length (lines : list string) (evs : list event_lines) :
  parse_event_lines lines = Return evs -> 1 <= length evs.
Proof.
  unfold parse_event_lines.
  destruct (parse_lines lines None []) as [[ev acc]|x]; simpl; [|discriminate].
  intros [= <-]. rewrite length_app. simpl. lia.
Qed.

Lemma first_line_unmarked_raises (l : string) (rest : list string) :
  is_marker l = false -> parse_event_lines (l :: rest) = Raise AttributeError.
Proof.
  intros Hl. unfold parse_event_lines. simpl. now rewrite Hl.
Qed.

Lemma kept_cons (a b : nat) (l : list nat) :
  kept (a :: b :: l) = (if 0 <? a then [a] else []) ++ kept (b :: l).
Proof.
  unfold kept.
  change (removelast (a :: b :: l)) with (a :: removelast (b :: l)).
  change (last (a :: b :: l) 0) with (last (b :: l) 0).
  simpl filter. destruct (0 <? a); reflexivity.
Qed.

Lemma kept_all (l : list nat) :
  l <> [] -> forallb (fun n => 0 <? n) (removelast l) = true -> kept l = l.
Proof.
  intros Hne Hall. unfold kept.
  rewrite forallb_filter_id by exact Hall.
  symmetry. now apply app_removelast_last.
Qed.

Lemma filter_drops (f g : nat -> bool) (l : list nat) :
  (forall n, g n = true -> f n = false) ->
  existsb g l = true -> length (filter f l) < length l.
Proof.
  intros Hfg.
  induction l as [|a l IH]; simpl; [discriminate|].
  pose proof (filter_length_le f l) as Hle.
  destruct (g a) eqn:Hg; simpl; intros H.
  - rewrite (Hfg a Hg). lia.
  - apply IH in H. destruct (f a); simpl; lia.
Qed.

Lemma kept_shorter (l : list nat) :
  existsb (fun n => n =? 0) (removelast l) = true -> length (kept l) < length l.
Proof.
  intros Hex.
  assert (Hne : l <> []) by (intros ->; discriminate).
  unfold kept. rewrite length_app. simpl.
  rewrite (app_removelast_last 0 Hne) at 2. rewrite length_app. simpl.
  apply Nat.add_lt_mono_r.
  apply filter_drops with (g := fun n => n =? 0); [|exact Hex].
  intros n Hn. apply Nat.eqb_eq in Hn. now subst n.
Qed.

(** The loop, started inside a block that holds [ev] so far: it reads
    every line, keeps the non-empty blocks and leaves the last one in
    [event]. *)
Lemma parse_lines_blocks (lines : list string) :
  forall ev event_list,
    forallb line_ok lines = true ->
    exists event' event_list',
      parse_lines lines (Some ev) event_list = Return (event', event_list') /\
      map particle_count (event_list' ++ [event']) =
      map particle_count event_list ++
      map Some (kept ((length ev + lines_until_marker lines) :: block_sizes lines)).
Proof.
  induction lines as [|l rest IH]; intros ev event_list Hok.
  - exists (Some ev), event_list. split; [reflexivity|].
    rewrite map_app. simpl. unfold kept. simpl. now rewrite Nat.add_0_r.
  - simpl in Hok. apply andb_prop in Hok as [Hl Hrest].
    unfold line_ok in Hl. simpl.
    destruct (is_marker l) eqn:Hm.
    + destruct (IH [] (if truthy (Some ev) then event_list ++ [Some ev] else event_list) Hrest)
        as (e' & el' & Hrun & Hmap).
      exists e', el'. split; [exact Hrun|].
      rewrite Hmap, kept_cons, Nat.add_0_r. simpl length. simpl Nat.add.
      destruct ev as [|p ev]; simpl; [reflexivity|].
      rewrite map_app, <- app_assoc. reflexivity.
    + simpl in Hl. unfold converts in Hl.
      destruct (np_array_float _) as [p|]; [|discriminate].
      destruct (IH (ev ++ [p]) event_list Hrest) as (e' & el' & Hrun & Hmap).
      exists e', el'. split; [exact Hrun|].
      rewrite Hmap, length_app. simpl.
      now rewrite <- Nat.add_assoc.
Qed.

(** A well-formed file is read to the end, and what comes back are the
    kept blocks. *)
Lemma parse_event_lines_blocks (lines : list string) :
  well_formed lines = true ->
  exists evs,
    parse_event_lines lines = Return evs /\
    map particle_count evs = map Some (kept (block_sizes lines)).
Proof.
  unfold well_formed. intros H. apply andb_prop in H as [Hs Hok].
  destruct lines as [|l rest]; [discriminate|]. simpl in Hs.
  simpl in Hok. apply andb_prop in Hok as [_ Hok].
  destruct (parse_lines_blocks rest [] [] Hok) as (e' & el' & Hrun & Hmap).
  exists (el' ++ [e']). split.
  - unfold parse_event_lines. simpl. rewrite Hs. simpl. now rewrite Hrun.
  - rewrite Hmap. simpl. now rewrite Hs.
Qed.

Lemma length_block_sizes (lines : list string) :
  length (block_sizes lines) = count_markers lines.
Proof.
  unfold count_markers.
  induction lines as [|l rest IH]; simpl; [reflexivity|].
  destruct (is_marker l); simpl; now rewrite IH.
Qed.

End ParseEvent.

(** ** The reader object *)

Section Reader.
Context {fl : PyFloat}.
Import ReaderAscii.

Lemma map_seq_nth {A B : Type} (f : A -> B) (d : A) (l : list A) :
  map (fun i => f (nth i l d)) (seq 0 (length l)) = map f l.
Proof.
  induction l as [|a l IH]; simpl; [reflexivity|].
  f_equal. rewrite <- seq_shift, map_map. exact IH.
Qed.

Lemma parse_event_opened (fs : filesystem) (input_file : string)
    (evs : list event_lines) :
  parse_event fs input_file = Return evs ->
  path_exists fs input_file = true /\
  exists lines, open_lines fs input_file = Return lines /\
                parse_event_lines lines = Return evs.
Proof.
  unfold parse_event, open_lines, path_exists.
  destruct input_file as [|c p]; simpl; [discriminate|].
  destruct (fs (String c p)) as [lines|]; simpl; [|discriminate].
  intros H. split; [reflexivity|]. now exists lines.
Qed.

Lemma init_without_partons (fs : filesystem) (h p : string) (hs : list event_lines) :
  path_exists fs p = false ->
  parse_event fs h = Return hs ->
  init fs h p = Return (fresh hs None).
Proof.
  intros Hp Hh. unfold init. rewrite Hh. simpl. rewrite Hp. simpl.
  now rewrite andb_false_r.
Qed.

Lemma init_with_partons (fs : filesystem) (h p : string) (hs ps : list event_lines) :
  parse_event fs h = Return hs ->
  parse_event fs p = Return ps ->
  init fs h p =
  if length hs =? length ps then Return (fresh hs (Some ps))
  else Raise (SystemExit (count_mismatch_message (length hs) (length ps))).
Proof.
  intros Hh Hp.
  destruct (parse_event_opened _ _ _ Hh) as [Eh _].
  destruct (parse_event_opened _ _ _ Hp) as [Ep _].
  unfold init. rewrite Hh. simpl. rewrite Ep, Hp. simpl. rewrite Eh. simpl.
  now destruct (length hs =? length ps).
Qed.

(** One call at a position inside the list. *)
Lemma next_event_inside (c : nat) (hs : list event_lines)
    (ps : option (list event_lines)) :
  c < length hs ->
  (forall pl, ps = Some pl -> length hs <= length pl) ->
  next_event (at_position c hs ps) =
  (Return (event_at hs ps c), at_position (S c) hs ps).
Proof.
  intros Hc Hps. unfold next_event, advance, at_position. simpl.
  apply Nat.ltb_lt in Hc as Hlt. rewrite Hlt.
  rewrite Nat.add_sub, Nat.add_1_r.
  unfold getitem at 1. rewrite (nth_error_nth' hs None Hc). simpl.
  unfold event_at.
  destruct ps as [[|p pl]|]; simpl; try reflexivity.
  unfold getitem.
  assert (Hc' : c < length (p :: pl)) by (specialize (Hps _ eq_refl); lia).
  rewrite (nth_error_nth' (p :: pl) None Hc'). reflexivity.
Qed.

(** One call at the end of the list. *)
Lemma next_event_exhausted (self : reader) :
  n_events self <= current_event self ->
  next_event self =
  (Raise (SystemExit (exhausted_message (current_event self) (n_events self))), self).
Proof.
  intros H. unfold next_event.
  apply Nat.ltb_ge in H. now rewrite H.
Qed.

Lemma next_events_seq (k : nat) :
  forall c hs ps,
    c + k <= length hs ->
    (forall pl, ps = Some pl -> length hs <= length pl) ->
    next_events k (at_position c hs ps) = Return (map (event_at hs ps) (seq c k)).
Proof.
  induction k as [|k IH]; intros c hs ps Hk Hps; [reflexivity|].
  cbn [next_events]. rewrite next_event_inside by (trivial; lia).
  rewrite IH by (trivial; lia). reflexivity.
Qed.

(** The reader's sequence for a maximum of [k] events. *)
Lemma call_next_event (k : nat) :
  forall c hs ps,
    c <= length hs ->
    (forall pl, ps = Some pl -> length hs <= length pl) ->
    ReaderBase.call next_event k (at_position c hs ps) =
    (map (event_at hs ps) (seq c (Nat.min k (length hs - c))),
     if k <=? length hs - c then None
     else Some (SystemExit (exhausted_message (length hs) (length hs)))).
Proof.
  induction k as [|k IH]; intros c hs ps Hc Hps; [reflexivity|].
  cbn [ReaderBase.call].
  destruct (Nat.eq_dec c (length hs)) as [->|Hne].
  - rewrite next_event_exhausted by (simpl; lia). simpl.
    rewrite Nat.sub_diag. reflexivity.
  - rewrite next_event_inside by (trivial; lia).
    rewrite IH by (trivial; lia).
    replace (length hs - c) with (S (length hs - S c)) by lia.
    reflexivity.
Qed.

Lemma events_without_partons (hs : list event_lines) :
  map (event_at hs None) (seq 0 (length hs)) = map hadrons_only hs.
Proof. exact (map_seq_nth hadrons_only None hs). Qed.

Lemma events_with_partons (hs ps : list event_lines) :
  length hs = length ps -> 1 <= length ps ->
  map (event_at hs (Some ps)) (seq 0 (length hs)) = map paired (combine hs ps).
Proof.
  intros Hlen Hpos.
  rewrite <- (map_seq_nth paired (None, None) (combine hs ps)).
  rewrite length_combine, <- Hlen, Nat.min_id.
  apply map_ext_in. intros i _.
  rewrite combine_nth by exact Hlen.
  unfold event_at, paired. simpl.
  destruct ps; [simpl in Hpos; lia|reflexivity].
Qed.

End Reader.

(** ** What the reader guarantees *)

Section ReaderClaims.
Context {fl : PyFloat}.
Import ReaderAscii.

(** C10 (as amended).  [parse_event] reads a file to the end exactly when
    the file is empty or starts with a marker and each of its other lines
    converts; it then returns at least one event, because the event in
    progress is appended after the loop whatever it is.  On the empty file
    it returns [[None]], and the reader counts one event, not zero.  A
    file that has lines but no marker is not read: the first line raises
    [AttributeError]. *)
Theorem parse_event_at_least_one (fs : filesystem) (input_file : string)
    (lines : list string) :
  open_lines fs input_file = Return lines ->
  (parses lines = true ->
     exists evs r,
       parse_event fs input_file = Return evs /\ 1 <= length evs /\
       init fs input_file "" = Return r /\ n_events r = length evs) /\
  (parses lines = false -> returns (parse_event fs input_file) = false) /\
  (lines = [] ->
     parse_event fs input_file = Return [None] /\
     exists r, init fs input_file "" = Return r /\ n_events r = 1) /\
  (lines <> [] -> forallb (fun l => negb (is_marker l)) lines = true ->
     parse_event fs input_file = Raise AttributeError).
Proof.
  intros Hopen.
  assert (Hpe : parse_event fs input_file = parse_event_lines lines)
    by (unfold parse_event; now rewrite Hopen).
  repeat split.
  - intros Hp. rewrite <- parse_event_lines_returns in Hp.
    destruct (parse_event_lines lines) as [evs|x] eqn:E; [|discriminate].
    exists evs, (fresh evs None).
    repeat split; trivial.
    + now apply parse_event_lines_length with (lines := lines).
    + now apply init_without_partons.
  - intros Hp. now rewrite Hpe, parse_event_lines_returns.
  - subst lines. exact Hpe.
  - subst lines. exists (fresh [None] None).
    split; [now apply init_without_partons | reflexivity].
  - intros Hne Hall. rewrite Hpe.
    destruct lines as [|l rest]; [contradiction|].
    simpl in Hall. apply andb_prop in Hall as [Hl _].
    apply first_line_unmarked_raises. now destruct (is_marker l).
Qed.

(** C5 (as amended).  For a block file that starts with a marker, whose
    other lines are markers or particle lines, and in which no block but
    the last is empty, the reader yields as many events as there are
    markers, and the particles of the i-th event are the non-marker lines
    between the i-th marker and the next one, or the end of the file. *)
Theorem reader_yields_blocks (fs : filesystem) (input_file : string)
    (lines : list string) :
  open_lines fs input_file = Return lines ->
  well_formed lines = true ->
  inner_blocks_nonempty lines = true ->
  yields_blocks fs input_file lines.
Proof.
  intros Hopen Hwf Hinner.
  destruct (parse_event_lines_blocks lines Hwf) as (evs & Hrun & Hmap).
  assert (Hne : block_sizes lines <> []).
  { unfold well_formed in Hwf. apply andb_prop in Hwf as [Hs _].
    destruct lines as [|l rest]; [discriminate|]. simpl in *.
    rewrite Hs. discriminate. }
  rewrite (kept_all _ Hne Hinner) in Hmap.
  assert (Hlen : length evs = count_markers lines).
  { rewrite <- length_block_sizes.
    rewrite <- (length_map particle_count evs), Hmap. apply length_map. }
  exists (fresh evs None), (map hadrons_only evs).
  repeat split.
  - apply init_without_partons; [reflexivity|].
    unfold parse_event. now rewrite Hopen.
  - exact Hlen.
  - rewrite <- Hlen. change (fresh evs None) with (at_position 0 evs None).
    rewrite next_events_seq by (trivial; discriminate).
    now rewrite events_without_partons.
  - now rewrite length_map.
  - rewrite map_map. exact Hmap.
Qed.

(** C6.  Where a block before the last has no particle line, the event is
    not kept: the reader counts fewer events than the file has markers. *)
Theorem empty_inner_event_dropped (fs : filesystem) (input_file : string)
    (lines : list string) :
  open_lines fs input_file = Return lines ->
  well_formed lines = true ->
  has_empty_inner_block lines = true ->
  exists r, init fs input_file "" = Return r /\ n_events r < count_markers lines.
Proof.
  intros Hopen Hwf Hempty.
  destruct (parse_event_lines_blocks lines Hwf) as (evs & Hrun & Hmap).
  exists (fresh evs None). split.
  - apply init_without_partons; [reflexivity|].
    unfold parse_event. now rewrite Hopen.
  - simpl. rewrite <- length_block_sizes.
    rewrite <- (length_map particle_count evs), Hmap, length_map.
    now apply kept_shorter.
Qed.

(** C9.  With a partons path that names no file, construction succeeds,
    no partons are loaded and no counts are compared; each event the
    reader then returns has the hadrons of its block and the empty
    partons component. *)
Theorem missing_partons_file_tolerated (fs : filesystem)
    (input_file_hadrons input_file_partons : string) (hs : list event_lines) :
  input_file_partons <> "" ->
  path_exists fs input_file_partons = false ->
  parse_event fs input_file_hadrons = Return hs ->
  exists r,
    init fs input_file_hadrons input_file_partons = Return r /\
    event_list_partons r = None /\
    n_events r = length hs /\
    next_events (length hs) r = Return (map hadrons_only hs).
Proof.
  intros _ Hp Hh. exists (fresh hs None).
  repeat split.
  - now apply init_without_partons.
  - change (fresh hs None) with (at_position 0 hs None).
    rewrite next_events_seq by (trivial; discriminate).
    now rewrite events_without_partons.
Qed.

(** The check of the constructor, on the lists it compares.  When both
    files are read, construction exits the process if [parse_event] made
    lists of different lengths of them; if the lengths are equal, the i-th
    event the reader returns pairs the i-th entries of the two lists. *)
Theorem hadron_parton_counts (fs : filesystem)
    (input_file_hadrons input_file_partons : string) (hs ps : list event_lines) :
  parse_event fs input_file_hadrons = Return hs ->
  parse_event fs input_file_partons = Return ps ->
  (length hs <> length ps ->
     init fs input_file_hadrons input_file_partons =
     Raise (SystemExit (count_mismatch_message (length hs) (length ps)))) /\
  (length hs = length ps ->
     exists r,
       init fs input_file_hadrons input_file_partons = Return r /\
       n_events r = length hs /\
       next_events (length hs) r = Return (map paired (combine hs ps))).
Proof.
  intros Hh Hp.
  pose proof (init_with_partons _ _ _ _ _ Hh Hp) as Hinit.
  split; intros Hlen.
  - apply Nat.eqb_neq in Hlen. now rewrite Hlen in Hinit.
  - rewrite Hlen, Nat.eqb_refl in Hinit.
    exists (fresh hs (Some ps)). repeat split; [exact Hinit|].
    change (fresh hs (Some ps)) with (at_position 0 hs (Some ps)).
    rewrite next_events_seq.
    + rewrite events_with_partons; trivial.
      destruct (parse_event_opened _ _ _ Hp) as (_ & lines & _ & Hl).
      now apply parse_event_lines_length with (lines := lines).
    + simpl. lia.
    + intros pl [= <-]. lia.
Qed.

(** C3.  Asked for more events than the file holds, the reader returns
    the events of the file and then exits the process: the call of
    [next_event] after the last event raises [SystemExit], it does not
    answer with a sentinel, and so the reader's sequence ends in that
    exception. *)
Theorem exhausted_reader_exits (fs : filesystem) (input_file : string)
    (hs : list event_lines) (max_events : nat) :
  parse_event fs input_file = Return hs ->
  length hs < max_events ->
  exists r,
    init fs input_file "" = Return r /\
    next_events (length hs) r = Return (map hadrons_only hs) /\
    fst (next_event (at_position (length hs) hs None)) =
      Raise (SystemExit (exhausted_message (length hs) (length hs))) /\
    ReaderBase.call next_event max_events r =
    (map hadrons_only hs,
     Some (SystemExit (exhausted_message (length hs) (length hs)))).
Proof.
  intros Hh Hmax. exists (fresh hs None).
  split; [now apply init_without_partons|].
  change (fresh hs None) with (at_position 0 hs None).
  split; [|split].
  - rewrite next_events_seq by (trivial; discriminate).
    now rewrite events_without_partons.
  - now rewrite next_event_exhausted by (simpl; lia).
  - rewrite call_next_event by (try discriminate; lia).
    rewrite Nat.sub_0_r, Nat.min_r by lia.
    rewrite events_without_partons.
    apply Nat.leb_gt in Hmax. now rewrite Hmax.
Qed.

End ReaderClaims.

(** ** The reader on the example files *)

Module ReaderRuns.
Import ReaderAscii Examples DecimalFloat.

(** C10, as the document states it, fails on a file without markers: a
    readable file with a particle line and no marker does not give
    [[None]], nor any list; [parse_event] raises. *)
Lemma parse_event_unmarked_counterexample :
  forallb (fun l => negb (is_marker l)) unmarked_file = true /\
  parse_event (fl := decimal) (one_file "test_out.dat" unmarked_file) "test_out.dat"
    = Raise AttributeError /\
  ~ (exists evs,
       parse_event (fl := decimal) (one_file "test_out.dat" unmarked_file) "test_out.dat"
         = Return evs /\ 1 <= length evs).
Proof.
  split; [reflexivity|]. split; [reflexivity|].
  intros (evs & H & _). vm_compute in H. discriminate H.
Qed.

Lemma parse_event_at_least_one_witness :
  (exists evs r,
      parse_event (fl := decimal) fs_hadrons "test_out.dat" = Return evs /\
      1 <= length evs /\
      init fs_hadrons "test_out.dat" "" = Return r /\ n_events r = length evs) /\
  (parse_event (fl := decimal) (one_file "test_out.dat" []) "test_out.dat" = Return [None] /\
   exists r, init (one_file "test_out.dat" []) "test_out.dat" "" = Return r /\
             n_events r = 1) /\
  parse_event (fl := decimal) (one_file "test_out.dat" unmarked_file) "test_out.dat"
    = Raise AttributeError.
Proof.
  split; [|split].
  - destruct (parse_event_at_least_one (fl := decimal) fs_hadrons "test_out.dat"
                hadrons_file eq_refl) as (H & _).
    apply H. reflexivity.
  - destruct (parse_event_at_least_one (fl := decimal) (one_file "test_out.dat" [])
                "test_out.dat" [] eq_refl) as (_ & _ & H & _).
    apply H. reflexivity.
  - destruct (parse_event_at_least_one (fl := decimal)
                (one_file "test_out.dat" unmarked_file)
                "test_out.dat" unmarked_file eq_refl) as (_ & _ & _ & H).
    apply H; [discriminate | reflexivity].
Defined.

(** C5, as the document states it, fails on two inputs: the empty file
    has no marker and the reader counts one event; a file of two markers in
    a row and one particle line has two markers and the reader counts one
    event. *)
Lemma reader_block_count_counterexample :
  (parses (fl := decimal) [] = true /\
   ~ yields_blocks (fl := decimal) (one_file "test_out.dat" []) "test_out.dat" []) /\
  (well_formed (fl := decimal) empty_event_file = true /\
   ~ yields_blocks (fl := decimal) (one_file "test_out.dat" empty_event_file)
       "test_out.dat" empty_event_file).
Proof.
  split; (split; [reflexivity|]);
    intros (r & es & Hinit & Hn & _);
    vm_compute in Hinit; injection Hinit as <-;
    vm_compute in Hn; discriminate Hn.
Qed.

Lemma reader_yields_blocks_witness :
  yields_blocks (fl := decimal) fs_hadrons "test_out.dat" hadrons_file /\
  count_markers hadrons_file = 2 /\ block_sizes hadrons_file = [2; 1].
Proof.
  split; [|split; reflexivity].
  apply (reader_yields_blocks (fl := decimal) fs_hadrons "test_out.dat" hadrons_file);
    reflexivity.
Defined.

Lemma empty_inner_event_dropped_witness :
  count_markers empty_event_file = 2 /\
  exists r,
    init (fl := decimal) (one_file "test_out.dat" empty_event_file) "test_out.dat" ""
      = Return r /\
    n_events r < count_markers empty_event_file.
Proof.
  split; [reflexivity|].
  apply (empty_inner_event_dropped (fl := decimal)
           (one_file "test_out.dat" empty_event_file) "test_out.dat" empty_event_file);
    reflexivity.
Defined.

Lemma missing_partons_file_tolerated_witness :
  path_exists fs_hadrons "partons.dat" = false /\
  exists r,
    init (fl := decimal) fs_hadrons "test_out.dat" "partons.dat" = Return r /\
    event_list_partons r = None /\
    n_events r = length hadrons_events /\
    next_events (length hadrons_events) r = Return (map hadrons_only hadrons_events).
Proof.
  split; [reflexivity|].
  apply (missing_partons_file_tolerated (fl := decimal) fs_hadrons
           "test_out.dat" "partons.dat" hadrons_events);
    [discriminate | reflexivity | reflexivity].
Defined.

Lemma hadron_parton_counts_witness :
  (exists r,
      init (fl := decimal) fs_both "test_out.dat" "partons.dat" = Return r /\
      n_events r = length hadrons_events /\
      next_events (length hadrons_events) r
        = Return (map paired (combine hadrons_events partons_events))) /\
  init (fl := decimal) fs_unequal "test_out.dat" "partons.dat"
    = Raise (SystemExit "Final state partons has 2 events, but partons has 1.").
Proof.
  split.
  - destruct (hadron_parton_counts (fl := decimal) fs_both "test_out.dat" "partons.dat"
                hadrons_events partons_events eq_refl eq_refl) as (_ & H).
    apply H. reflexivity.
  - destruct (hadron_parton_counts (fl := decimal) fs_unequal "test_out.dat" "partons.dat"
                hadrons_events one_event eq_refl eq_refl) as (H & _).
    apply H. discriminate.
Defined.

Lemma exhausted_reader_exits_witness :
  exists r,
    init (fl := decimal) (one_file "test_out.dat" forty_events_file) "test_out.dat" ""
      = Return r /\
    length forty_events = 40 /\
    next_events 40 r = Return (map hadrons_only forty_events) /\
    ReaderBase.call next_event 100 r =
    (map hadrons_only forty_events,
     Some (SystemExit "Current event 40 greater than total n_events 40")).
Proof.
  destruct (exhausted_reader_exits (fl := decimal)
              (one_file "test_out.dat" forty_events_file) "test_out.dat"
              forty_events 100)
    as (r & Hinit & Hnext & _ & Hcall).
  - vm_compute. reflexivity.
  - vm_compute. lia.
  - exists r. split; [exact Hinit|]. split; [reflexivity|].
    split; [exact Hnext | exact Hcall].
Defined.

End ReaderRuns.

(** ** The grid of parameter combinations *)

Section Grid.
Import Driver.

Lemma length_product_cons (l : list yaml_scalar) (rest : list (list yaml_scalar)) :
  length (product (l :: rest)) = length l * length (product rest).
Proof.
  induction l as [|x l IH]; [reflexivity|].
  change (product ((x :: l) :: rest))
    with (map (cons x) (product rest) ++ product (l :: rest)).
  rewrite length_app, length_map, IH. reflexivity.
Qed.






Lemma flat_map_singletons {A B : Type} (f : A -> option B) (g : A -> B) (l : list A) :
  (forall x, In x l -> f x = Some (g x)) ->
  flat_map (fun x => match f x with Some p => [p] | None => [] end) l = map g l.
Proof.
  induction l as [|a l IH]; intros H; [reflexivity|].
  simpl. rewrite (H a) by now left.
  simpl. f_equal. apply IH. intros x Hx. apply H. now right.
Qed.

Lemma length_enumerate {A : Type} (l : list A) : length (enumerate l) = length l.
Proof.
  unfold enumerate. rewrite length_combine, length_seq. apply Nat.min_id.
Qed.

Lemma enumerate_index {A : Type} (l : list A) (i : nat) (a : A) :
  In (i, a) (enumerate l) -> i < length l.
Proof.
  unfold enumerate. intros H. apply in_combine_l in H. apply in_seq in H. lia.
Qed.

End Grid.

(** ** The driver *)

Section DriverClaims.
Context {fl : PyFloat}.
Import Driver.

Variable HepMCEvent : Type.
Variable read_events : list string -> result (list HepMCEvent).
Variable U : Type.
Variable initialize_user_output_objects : result U.
Variable analyze_event : py_event HepMCEvent -> U -> result U.

(** The loop runs the bins of [grid_points], in that order. *)
Lemma grid_loop_process_all (fs : filesystem) (cfg : config) (g : grid)
    (input_dir output_dir : string) (combinations : list (nat * list yaml_scalar)) :
  forall self,
    grid_loop read_events initialize_user_output_objects analyze_event
      fs cfg g input_dir output_dir combinations self =
    process_all read_events initialize_user_output_objects analyze_event
      fs cfg input_dir output_dir
      (flat_map (fun ic => match grid_point g (fst ic) (snd ic) with
                           | Some p => [p]
                           | None => []
                           end) combinations) self.
Proof.
  induction combinations as [|[index combination] rest IH]; intros self;
    [reflexivity|].
  simpl. destruct (grid_point g index combination) as [point|]; simpl.
  - destruct (process_grid_point _ _ _ _ _ _ _ _ _) as [self'|x]; simpl; [|reflexivity].
    apply IH.
  - apply IH.
Qed.


Lemma cross_section_lines_skip (rtype : string) (lines : list string) :
  forall cross_sections,
    forallb (fun l => negb (metadata_line rtype l)) lines = true ->
    cross_section_lines rtype lines cross_sections = Return cross_sections.
Proof.
  induction lines as [|l rest IH]; intros acc H; [reflexivity|].
  simpl in H. apply andb_prop in H as [Hl Hrest].
  unfold metadata_line in Hl. simpl.
  destruct (String.eqb rtype "hepmc").
  - destruct (PyStr.contains "GenCrossSection" l); [discriminate|]. now apply IH.
  - destruct (String.eqb rtype "dat"); [|now apply IH].
    destruct (PyStr.contains "sigmaGen" l); [discriminate|]. now apply IH.
Qed.

(** C8.  On a file without a cross-section line of the reader's format,
    the list of cross sections stays empty and taking its last element
    raises [IndexError]: no value is returned, and the bin is not
    written. *)
Theorem cross_section_absent (fs : filesystem) (rtype input_file : string)
    (lines : list string) :
  open_lines fs input_file = Return lines ->
  forallb (fun l => negb (metadata_line rtype l)) lines = true ->
  cross_section fs rtype input_file = Raise IndexError /\
  forall output_dir_bin pt_hat_bin (u : U) self,
    write_output_objects fs rtype input_file output_dir_bin pt_hat_bin u self
    = Raise IndexError.
Proof.
  intros Hopen Hnone.
  assert (H : cross_section fs rtype input_file = Raise IndexError).
  { unfold cross_section. rewrite Hopen. cbn [bind].
    now rewrite cross_section_lines_skip. }
  split; [exact H|].
  intros. unfold write_output_objects. now rewrite H.
Qed.

Lemma cross_section_lines_dat (lines : list string) :
  forall cross_sections l,
    Forall stored_line cross_sections ->
    cross_section_lines "dat" lines cross_sections = Return l ->
    Forall stored_line l.
Proof.
  induction lines as [|line rest IH]; intros acc l Hacc; simpl.
  - now intros [= <-].
  - destruct (PyStr.contains "sigmaGen" line) eqn:Hc; [|now apply IH].
    destruct (ReaderAscii.getitem _ 2) as [tok|x]; simpl; [|discriminate].
    destruct (float_of_str tok); [|discriminate].
    apply IH. apply Forall_app. split; [exact Hacc|].
    constructor; [|constructor]. now exists line.
Qed.

(** C2.  In the ASCII format the value returned is not a number: it is
    the text of the last line that holds the keyword. *)
Theorem dat_cross_section_is_a_line (fs : filesystem) (input_file : string)
    (v : pyval) :
  cross_section fs "dat" input_file = Return v ->
  exists line, v = PyStrV line /\ PyStr.contains "sigmaGen" line = true.
Proof.
  unfold cross_section.
  destruct (open_lines fs input_file) as [lines|x]; [|discriminate]. cbn [bind].
  destruct (cross_section_lines "dat" lines []) as [l|x] eqn:E; [|discriminate].
  cbn [bind]. unfold last_item.
  destruct (rev l) as [|a t] eqn:Hrev; [discriminate|].
  intros [= <-].
  pose proof (cross_section_lines_dat lines [] l (Forall_nil _) E) as Hall.
  rewrite Forall_forall in Hall. apply Hall.
  apply in_rev. rewrite Hrev. now left.
Qed.

(** The loop adds the events it iterates to the counter it finds. *)
Lemma event_loop_count (yielded : list (py_event HepMCEvent)) (ending : option exn) :
  forall u self u' self',
    event_loop analyze_event yielded ending u self = Return (u', self') ->
    event_id self' = event_id self + iterated yielded /\
    written self' = written self.
Proof.
  induction yielded as [|event rest IH]; intros u self u' self'; simpl.
  - destruct ending; [discriminate|]. intros [= <- <-]. split; [lia|reflexivity].
  - destruct (is_falsy event).
    + intros [= <- <-]. split; [lia|reflexivity].
    + destruct (analyze_event event u) as [u1|x]; simpl; [|discriminate].
      intros H. apply IH in H as [Hid Hw]. simpl in *. split; [lia|exact Hw].
Qed.

(** One bin: the count written is the counter before the bin plus the
    events of the bin. *)
Lemma run_jetscape_analysis_count (fs : filesystem) (cfg : config)
    (input_file output_dir_bin : string) (pt_hat_bin : nat) (self self' : driver U) :
  run_jetscape_analysis read_events initialize_user_output_objects analyze_event
    fs cfg input_file output_dir_bin pt_hat_bin self = Return self' ->
  exists r f,
    open_reader read_events fs (reader_type cfg) input_file = Return (Some r) /\
    written self' = written self ++ [f] /\
    hNevents f =
      (pt_hat_bin + 1,
       event_id self + iterated (fst (ReaderBase.call reader_next (n_event_max cfg) r))) /\
    event_id self' =
      event_id self + iterated (fst (ReaderBase.call reader_next (n_event_max cfg) r)).
Proof.
  unfold run_jetscape_analysis.
  destruct (open_reader _ _ _ _) as [[r|]|x]; cbn [bind]; try discriminate.
  - destruct initialize_user_output_objects as [u|x]; cbn [bind]; [|discriminate].
    destruct (ReaderBase.call reader_next (n_event_max cfg) r) as [ys ending] eqn:Hcall.
    destruct (event_loop analyze_event ys ending u self) as [[u1 self1]|x] eqn:E;
      cbn [bind]; [|discriminate].
    apply event_loop_count in E as [Hid Hw].
    unfold write_output_objects.
    destruct (cross_section _ _ _) as [xs|x]; cbn [bind]; [|discriminate].
    destruct (as_double xs) as [d|x]; cbn [bind]; [|discriminate].
    intros [= <-]. cbn [fst snd written event_id] in *.
    eexists r, _. rewrite Hcall. cbn [fst]. repeat split.
    + rewrite Hw. reflexivity.
    + cbn [hNevents]. now rewrite Hid.
    + exact Hid.
  - destruct initialize_user_output_objects; discriminate.
Qed.

(** The sequence of the ASCII reader, seen through [self.reader]. *)
Lemma call_ascii (n : nat) :
  forall r : ReaderAscii.reader,
    ReaderBase.call (reader_next (HepMCEvent := HepMCEvent)) n (Ascii r) =
    (map EventAscii (fst (ReaderBase.call ReaderAscii.next_event n r)),
     snd (ReaderBase.call ReaderAscii.next_event n r)).
Proof.
  induction n as [|n IH]; intros r; [reflexivity|].
  cbn [ReaderBase.call reader_next].
  destruct (ReaderAscii.next_event r) as [[e|x] r']; [|reflexivity].
  rewrite IH.
  now destruct (ReaderBase.call ReaderAscii.next_event n r').
Qed.

Lemma event_loop_ending (es : list ReaderAscii.EventAscii) (x : exn) :
  forall u self,
    exists y, event_loop analyze_event (map EventAscii es) (Some x) u self = Raise y.
Proof.
  induction es as [|e es IH]; intros u self; simpl.
  - now exists x.
  - destruct (analyze_event (EventAscii e) u) as [u'|y]; simpl.
    + apply IH.
    + now exists y.
Qed.

(** With the ASCII reader and a file shorter than the configured maximum
    the bin is not written: the run ends in an exception, the exit of
    [next_event] if no hook raised before. *)
Lemma run_dat_exhausted_raises (fs : filesystem) (cfg : config)
    (input_file output_dir_bin : string) (pt_hat_bin : nat) (self : driver U)
    (hs : list ReaderAscii.event_lines) :
  reader_type cfg = "dat" ->
  ReaderAscii.parse_event fs input_file = Return hs ->
  length hs < n_event_max cfg ->
  exists x,
    run_jetscape_analysis read_events initialize_user_output_objects analyze_event
      fs cfg input_file output_dir_bin pt_hat_bin self = Raise x.
Proof.
  intros Hdat Hh Hmax. unfold run_jetscape_analysis, open_reader.
  rewrite Hdat. simpl String.eqb. cbv iota.
  rewrite (init_without_partons fs input_file "" hs eq_refl Hh). cbn [bind].
  destruct initialize_user_output_objects as [u|x]; cbn [bind]; [|now exists x].
  rewrite call_ascii.
  change (ReaderAscii.fresh hs None) with (ReaderAscii.at_position 0 hs None).
  rewrite call_next_event by (try discriminate; lia).
  cbn [fst snd]. apply Nat.leb_gt in Hmax as Hleb.
  rewrite Nat.sub_0_r, Hleb.
  destruct (event_loop_ending
              (map (ReaderAscii.event_at hs None)
                   (seq 0 (Nat.min (n_event_max cfg) (length hs))))
              (SystemExit (ReaderAscii.exhausted_message (length hs) (length hs)))
              u self) as (y & Hy).
  rewrite Hy. now exists y.
Qed.

End DriverClaims.

(** ** The driver on the example inputs *)

Module DriverRuns.
Import Driver Examples DecimalFloat.

(** C1.  Two pt-hat bins of two events each: the file of the first bin
    holds the count 2, the file of the second holds 4.  The counter is set
    to zero when the configuration is read and runs on from bin to bin, so
    the second bin's count includes the first bin's events. *)
Theorem event_count_carried_over :
  exists f0 f1 r0 r1,
    analyze_jetscape_events read_event_records no_objects ignore_event
      fs_two_bins two_bins "in" "out"
      = Return {| event_id := 4; written := [f0; f1] |} /\
    open_reader read_event_records fs_two_bins "hepmc" "in/0/test_out.hepmc"
      = Return (Some r0) /\
    open_reader read_event_records fs_two_bins "hepmc" "in/1/test_out.hepmc"
      = Return (Some r1) /\
    iterated (fst (ReaderBase.call reader_next (n_event_max two_bins) r0)) = 2 /\
    iterated (fst (ReaderBase.call reader_next (n_event_max two_bins) r1)) = 2 /\
    path f0 = "out/0/AnalysisResults.root" /\ hNevents f0 = (1, 2) /\
    path f1 = "out/1/AnalysisResults.root" /\ hNevents f1 = (2, 4).
Proof.
  do 4 eexists.
  repeat (split; [vm_compute; reflexivity|]).
  reflexivity.
Qed.

Lemma dat_cross_section_is_a_line_witness :
  cross_section (one_file "test_out.dat" dat_file) "dat" "test_out.dat"
    = Return (PyStrV (line "# sigmaGen 3.02 sigmaErr 0.05")) /\
  exists l, PyStrV (line "# sigmaGen 3.02 sigmaErr 0.05") = PyStrV l /\
            PyStr.contains "sigmaGen" l = true.
Proof.
  split; [reflexivity|].
  apply (dat_cross_section_is_a_line (one_file "test_out.dat" dat_file) "test_out.dat").
  reflexivity.
Defined.

(** The HepMC branch on the same three reports: the last value, divided
    by 1e9. *)
Lemma hepmc_cross_section_is_last_value :
  cross_section (one_file "test_out.hepmc" hepmc_file) "hepmc" "test_out.hepmc"
    = Return (PyFloatV (div_1e9 (3020000000 # 1)%Q)).
Proof. reflexivity. Qed.

Lemma cross_section_absent_witness :
  cross_section fs_hadrons "dat" "test_out.dat" = Raise IndexError /\
  forall output_dir_bin pt_hat_bin (u : unit) self,
    write_output_objects fs_hadrons "dat" "test_out.dat" output_dir_bin pt_hat_bin u self
    = Raise IndexError.
Proof.
  apply (cross_section_absent unit fs_hadrons "dat" "test_out.dat" hadrons_file);
    reflexivity.
Defined.


End DriverRuns.

(** * Further properties of the code *)

(** ** [parse_event], line by line *)

Section ParseEventMore.
Context {fl : PyFloat}.
Import ReaderAscii ReaderTerms.

(** Inside a block the only exception is the [ValueError] of a token. *)
Lemma parse_lines_block_raises (lines : list string) :
  forall ev event_list x,
    parse_lines lines (Some ev) event_list = Raise x -> x = ValueError.
Proof.
  induction lines as [|l rest IH]; intros ev acc x; simpl; [discriminate|].
  destruct (is_marker l); [apply IH|].
  destruct (np_array_float _); [apply IH|].
  now intros [= <-].
Qed.

(** Inside a block the event in progress is a list. *)
Lemma parse_lines_block_event (lines : list string) :
  forall ev event_list e event_list',
    parse_lines lines (Some ev) event_list = Return (e, event_list') ->
    exists ev', e = Some ev'.
Proof.
  induction lines as [|l rest IH]; intros ev acc e acc'; simpl.
  - intros [= <- _]. now exists ev.
  - destruct (is_marker l); [apply IH|].
    destruct (np_array_float _); [apply IH|discriminate].
Qed.

(** The loop over two files read one after the other. *)
Lemma parse_lines_app (l1 l2 : list string) :
  forall event event_list,
    parse_lines (l1 ++ l2) event event_list =
    match parse_lines l1 event event_list with
    | Return (event', event_list') => parse_lines l2 event' event_list'
    | Raise x => Raise x
    end.
Proof.
  induction l1 as [|l rest IH]; intros event acc; simpl; [reflexivity|].
  destruct (is_marker l); [apply IH|].
  destruct event as [ev|]; [|reflexivity].
  destruct (np_array_float _); [apply IH|reflexivity].
Qed.

Lemma parse_event_lines_inv (lines : list string) (evs : list event_lines) :
  parse_event_lines lines = Return evs ->
  parse_lines lines None [] = Return (last evs None, removelast evs).
Proof.
  unfold parse_event_lines.
  destruct (parse_lines lines None []) as [[e acc]|x]; simpl; [|discriminate].
  intros [= <-]. now rewrite last_last, removelast_last.
Qed.

(** X1.  On a file that exists [parse_event] raises [AttributeError]
    exactly when the first line is no marker, [ValueError] exactly when
    the first line is a marker and some line further down has a token that
    is no number, and nothing else. *)
Theorem parse_event_raises (fs : filesystem) (input_file : string)
    (lines : list string) :
  open_lines fs input_file = Return lines ->
  (parse_event fs input_file = Raise AttributeError <-> starts_unmarked lines = true) /\
  (parse_event fs input_file = Raise ValueError <->
     starts_with_marker lines = true /\ forallb line_ok lines = false) /\
  (forall x, parse_event fs input_file = Raise x ->
     x = AttributeError \/ x = ValueError).
Proof.
  intros Hopen.
  assert (Hpe : parse_event fs input_file = parse_event_lines lines)
    by (unfold parse_event; now rewrite Hopen).
  rewrite Hpe. clear Hpe Hopen.
  destruct lines as [|l rest].
  - unfold parse_event_lines. simpl.
    repeat split; try discriminate; intros H; try discriminate.
    destruct H; discriminate.
  - unfold starts_unmarked, starts_with_marker.
    destruct (is_marker l) eqn:Hm.
    + pose proof (parse_lines_returns rest (Some []) []) as Hret.
      assert (Hl : line_ok l = true) by (unfold line_ok; now rewrite Hm).
      unfold parse_event_lines. simpl. rewrite Hm, Hl. simpl.
      destruct (parse_lines rest (Some []) []) as [[e acc]|x] eqn:E; simpl in *.
      * rewrite <- Hret. repeat split; try discriminate.
        intros [_ H]; discriminate.
      * apply parse_lines_block_raises in E. subst x.
        rewrite <- Hret. repeat split; try discriminate; auto.
        intros x [= <-]. now right.
    + rewrite (first_line_unmarked_raises l rest Hm). simpl.
      repeat split; try discriminate; auto.
      * intros [H _]; discriminate.
      * intros x [= <-]. now left.
Qed.

(** X2.  On a well-formed file the reader counts one event for each block
    before the last that holds a line, and one for the last block: at
    least one event, at most as many as the file has markers. *)
Theorem event_count_formula (fs : filesystem) (input_file : string)
    (lines : list string) :
  open_lines fs input_file = Return lines ->
  well_formed lines = true ->
  exists r,
    init fs input_file "" = Return r /\
    n_events r = nonempty_inner_blocks lines + 1 /\
    1 <= n_events r <= count_markers lines.
Proof.
  intros Hopen Hwf.
  destruct (parse_event_lines_blocks lines Hwf) as (evs & Hrun & Hmap).
  exists (fresh evs None).
  assert (Hn : length evs = nonempty_inner_blocks lines + 1).
  { rewrite <- (length_map particle_count evs), Hmap, length_map.
    unfold kept, nonempty_inner_blocks. now rewrite length_app. }
  split; [|split].
  - apply init_without_partons; [reflexivity|].
    unfold parse_event. now rewrite Hopen.
  - exact Hn.
  - simpl. rewrite Hn. split; [lia|].
    rewrite <- length_block_sizes. unfold nonempty_inner_blocks.
    pose proof (filter_length_le (fun n => 0 <? n) (removelast (block_sizes lines))) as Hle.
    assert (Hne : block_sizes lines <> []).
    { unfold well_formed in Hwf. apply andb_prop in Hwf as [Hs _].
      destruct lines as [|l rest]; [discriminate|]. simpl in *.
      rewrite Hs. discriminate. }
    rewrite (app_removelast_last 0 Hne) at 2. rewrite length_app. simpl. lia.
Qed.

(** X3.  What one more line at the end of a file does.  A marker closes
    the list with an empty event, in place of the last event if that one
    was empty (or absent) and after it otherwise; so the line of the cross
    section, which starts with the marker character, counts as an event.
    A particle line adds its particle to the last event. *)
Theorem parse_event_appended_line (lines : list string) (evs : list event_lines)
    (l : string) :
  parse_event_lines lines = Return evs ->
  (is_marker l = true ->
     parse_event_lines (lines ++ [l]) =
     Return ((if truthy (last evs None) then evs else removelast evs) ++ [Some []])) /\
  (is_marker l = false -> lines <> [] ->
     forall p, np_array_float (PyStr.split (PyStr.rstrip_newline l)) = Some p ->
     exists ev,
       last evs None = Some ev /\
       parse_event_lines (lines ++ [l]) = Return (removelast evs ++ [Some (ev ++ [p])])).
Proof.
  intros Hrun.
  assert (Hevs : evs = removelast evs ++ [last evs None]).
  { apply app_removelast_last. intros ->.
    apply parse_event_lines_length in Hrun. simpl in Hrun. lia. }
  apply parse_event_lines_inv in Hrun.
  split.
  - intros Hm. unfold parse_event_lines.
    rewrite parse_lines_app, Hrun. simpl. rewrite Hm. simpl.
    destruct (truthy (last evs None)); [now rewrite <- Hevs | reflexivity].
  - intros Hm Hne p Hp.
    assert (Hsome : exists ev, last evs None = Some ev).
    { destruct lines as [|l0 rest]; [contradiction|].
      simpl in Hrun. destruct (is_marker l0); [|discriminate].
      now apply parse_lines_block_event in Hrun. }
    destruct Hsome as (ev & Hev). exists ev. split; [exact Hev|].
    unfold parse_event_lines.
    rewrite parse_lines_app, Hrun, Hev. simpl. rewrite Hm, Hp. reflexivity.
Qed.

(** Trailing newlines make no token. *)
Lemma split_from_rstrip (s : string) :
  forall tok, PyStr.split_from (PyStr.rstrip_newline s) tok = PyStr.split_from s tok.
Proof.
  induction s as [|c s IH]; intros tok; [reflexivity|].
  simpl PyStr.rstrip_newline.
  destruct (PyStr.rstrip_newline s) as [|c' r] eqn:Hr.
  - destruct (Ascii.eqb c PyStr.newline) eqn:Hc.
    + apply Ascii.eqb_eq in Hc. subst c. simpl.
      destruct tok as [t|]; rewrite <- IH; reflexivity.
    + simpl. destruct (PyStr.isspace c); [destruct tok|]; now rewrite <- IH.
  - simpl. destruct (PyStr.isspace c); [destruct tok|]; now rewrite <- IH.
Qed.

(** X4.  Stripping the newline before splitting changes nothing: the
    particle read from a line is the same with and without it. *)
Theorem rstrip_before_split_is_redundant (line : string) :
  PyStr.split (PyStr.rstrip_newline line) = PyStr.split line /\
  np_array_float (PyStr.split (PyStr.rstrip_newline line)) =
  np_array_float (PyStr.split line).
Proof.
  assert (H : PyStr.split (PyStr.rstrip_newline line) = PyStr.split line)
    by apply split_from_rstrip.
  split; [exact H | now rewrite H].
Qed.

End ParseEventMore.

(** ** The reader object, further *)

Section ReaderMore.
Context {fl : PyFloat}.
Import ReaderAscii ReaderTerms.

(** X5.  When construction succeeds.  An exception of reading the hadrons
    file is the exception of the constructor, whatever the partons path;
    so is an exception of reading a partons file that exists; and the
    constructor returns exactly when the hadrons file is read and the
    partons path either names no file or names one that is read and holds
    as many events. *)
Theorem init_outcome (fs : filesystem) (input_file_hadrons input_file_partons : string) :
  (forall x, parse_event fs input_file_hadrons = Raise x ->
     init fs input_file_hadrons input_file_partons = Raise x) /\
  (forall hs x, parse_event fs input_file_hadrons = Return hs ->
     path_exists fs input_file_partons = true ->
     parse_event fs input_file_partons = Raise x ->
     init fs input_file_hadrons input_file_partons = Raise x) /\
  returns (init fs input_file_hadrons input_file_partons) =
    returns (parse_event fs input_file_hadrons) &&
    (negb (path_exists fs input_file_partons) ||
     same_length (parse_event fs input_file_hadrons)
                 (parse_event fs input_file_partons)).
Proof.
  split; [|split].
  - intros x Hx. unfold init. now rewrite Hx.
  - intros hs x Hh Hex Hp. unfold init. rewrite Hh. simpl.
    now rewrite Hex, Hp.
  - destruct (parse_event fs input_file_hadrons) as [hs|x] eqn:Hh.
    + destruct (path_exists fs input_file_partons) eqn:Hex.
      * destruct (parse_event fs input_file_partons) as [ps|y] eqn:Hp.
        -- rewrite (init_with_partons _ _ _ _ _ Hh Hp). simpl.
           now destruct (length hs =? length ps).
        -- unfold init. rewrite Hh. simpl. now rewrite Hex, Hp.
      * now rewrite (init_without_partons _ _ _ _ Hex Hh).
    + unfold init. now rewrite Hh.
Qed.

Lemma next_events_bounded (k : nat) :
  forall c hs ps,
    c <= length hs ->
    (forall pl, ps = Some pl -> length hs <= length pl) ->
    next_events k (at_position c hs ps) =
    if c + k <=? length hs then Return (map (event_at hs ps) (seq c k))
    else Raise (SystemExit (exhausted_message (length hs) (length hs))).
Proof.
  induction k as [|k IH]; intros c hs ps Hc Hps.
  - rewrite Nat.add_0_r. apply Nat.leb_le in Hc. now rewrite Hc.
  - cbn [next_events].
    destruct (Nat.eq_dec c (length hs)) as [->|Hne].
    + rewrite next_event_exhausted by (simpl; lia). simpl.
      assert (H : (length hs + S k <=? length hs) = false) by (apply Nat.leb_gt; lia).
      now rewrite H.
    + rewrite next_event_inside by (trivial; lia).
      rewrite IH by (trivial; lia).
      replace (S c + k) with (c + S k) by lia.
      now destruct (c + S k <=? length hs).
Qed.

Lemma firstn_seq_le (k n start : nat) :
  k <= n -> firstn k (seq start n) = seq start k.
Proof.
  intros Hk. replace n with (k + (n - k)) by lia.
  rewrite seq_app, firstn_app, length_seq, Nat.sub_diag, firstn_O, app_nil_r.
  apply firstn_all2. rewrite length_seq. lia.
Qed.

(** X6.  The events come in file order and only once: [k] calls of
    [next_event] on a new reader return the first [k] events of the file
    when the file holds that many, and end in the exit of the process when
    it does not. *)
Theorem next_events_prefix (fs : filesystem) (input_file : string)
    (hs : list event_lines) :
  parse_event fs input_file = Return hs ->
  exists r,
    init fs input_file "" = Return r /\
    forall k,
      next_events k r =
      if k <=? length hs then Return (firstn k (map hadrons_only hs))
      else Raise (SystemExit (exhausted_message (length hs) (length hs))).
Proof.
  intros Hh. exists (fresh hs None).
  split; [now apply init_without_partons|].
  intros k. change (fresh hs None) with (at_position 0 hs None).
  rewrite next_events_bounded by (try discriminate; lia). simpl.
  destruct (k <=? length hs) eqn:Hk; [|reflexivity].
  apply Nat.leb_le in Hk.
  rewrite <- events_without_partons, firstn_map.
  now rewrite firstn_seq_le by exact Hk.
Qed.

End ReaderMore.

(** ** The reader on further files *)

Module ReaderMoreRuns.
Import ReaderAscii ReaderTerms Examples MoreExamples DecimalFloat.

Lemma parse_event_raises_witness :
  parse_event (one_file "test_out.dat" bad_token_file) "test_out.dat" = Raise ValueError /\
  parse_event (one_file "test_out.dat" unmarked_file) "test_out.dat" = Raise AttributeError.
Proof.
  split.
  - destruct (parse_event_raises (one_file "test_out.dat" bad_token_file)
                "test_out.dat" bad_token_file eq_refl) as (_ & H & _).
    apply H. split; reflexivity.
  - destruct (parse_event_raises (one_file "test_out.dat" unmarked_file)
                "test_out.dat" unmarked_file eq_refl) as (H & _).
    apply H. reflexivity.
Defined.

Lemma event_count_formula_witness :
  nonempty_inner_blocks empty_event_file = 0 /\
  exists r,
    init (one_file "test_out.dat" empty_event_file) "test_out.dat" "" = Return r /\
    n_events r = nonempty_inner_blocks empty_event_file + 1 /\
    1 <= n_events r <= count_markers empty_event_file.
Proof.
  split; [reflexivity|].
  apply (event_count_formula (one_file "test_out.dat" empty_event_file)
           "test_out.dat" empty_event_file); reflexivity.
Defined.

Lemma parse_event_appended_line_witness :
  parse_event_lines (hadrons_file ++ [trailer]) = Return (hadrons_events ++ [Some []]).
Proof.
  destruct (parse_event_appended_line hadrons_file hadrons_events trailer eq_refl)
    as (H & _).
  apply H. reflexivity.
Defined.

Lemma next_events_prefix_witness :
  exists r,
    init fs_hadrons "test_out.dat" "" = Return r /\
    next_events 1 r = Return (firstn 1 (map hadrons_only hadrons_events)) /\
    next_events 3 r = Raise (SystemExit "Current event 2 greater than total n_events 2").
Proof.
  destruct (next_events_prefix fs_hadrons "test_out.dat" hadrons_events eq_refl)
    as (r & Hinit & Hk).
  exists r. split; [exact Hinit|]. split; [apply (Hk 1) | apply (Hk 3)].
Defined.

End ReaderMoreRuns.

(** ** The driver: directories, reader types, hooks and degenerate scans *)

Section DriverMore.
Context {fl : PyFloat}.
Import Driver DriverTerms.

Variable HepMCEvent : Type.
Variable read_events : list string -> result (list HepMCEvent).
Variable U : Type.
Variable initialize_user_output_objects : result U.
Variable analyze_event : py_event HepMCEvent -> U -> result U.

Lemma endswith_slash_app (d : string) :
  PyStr.endswith_slash (d ++ "/") = true.
Proof.
  induction d as [|c d IH]; [reflexivity|].
  destruct d as [|c' d']; [reflexivity|].
  exact IH.
Qed.

Lemma with_slash_ends (d : string) : PyStr.endswith_slash (with_slash d) = true.
Proof.
  unfold with_slash.
  destruct (PyStr.endswith_slash d) eqn:H; [exact H | apply endswith_slash_app].
Qed.

Lemma with_slash_idempotent (d : string) : with_slash (with_slash d) = with_slash d.
Proof.
  unfold with_slash at 1. now rewrite with_slash_ends.
Qed.

(** X7.  The constructor gives both directories a final slash, once: a
    run started with [dir] and one started with [dir/] are the same
    run. *)
Theorem trailing_slash_is_immaterial (fs : filesystem) (cfg : config)
    (input_dir output_dir : string) :
  PyStr.endswith_slash (with_slash output_dir) = true /\
  analyze_jetscape_events read_events initialize_user_output_objects analyze_event
    fs cfg (with_slash input_dir) (with_slash output_dir) =
  analyze_jetscape_events read_events initialize_user_output_objects analyze_event
    fs cfg input_dir output_dir.
Proof.
  split; [apply with_slash_ends|].
  unfold analyze_jetscape_events. now rewrite !with_slash_idempotent.
Qed.

(** The run, as the bins of the grid points one after the other. *)
Lemma analyze_as_process_all (fs : filesystem) (cfg : config) (g : grid)
    (input_dir output_dir : string) :
  make_grid cfg = Return g ->
  analyze_jetscape_events read_events initialize_user_output_objects analyze_event
    fs cfg input_dir output_dir =
  process_all read_events initialize_user_output_objects analyze_event
    fs cfg (with_slash input_dir) (with_slash output_dir) (grid_points g)
    initialize_config.
Proof.
  intros Hg. unfold analyze_jetscape_events. rewrite Hg. cbn [bind].
  apply grid_loop_process_all.
Qed.

(** X8.  A reader type other than ['hepmc'], ['dat'] and ['ascii'] (which
    is renamed ['dat']) opens no file: once the output objects are
    initialised the bin fails with [AttributeError], and a run with at
    least one grid point fails the same way at its first bin. *)
Theorem unknown_reader_type (fs : filesystem) (cfg : config) (g : grid)
    (input_dir output_dir : string) (point : nat * string)
    (points : list (nat * string)) :
  String.eqb (reader_type cfg) "hepmc" = false ->
  String.eqb (reader_type cfg) "dat" = false ->
  make_grid cfg = Return g ->
  grid_points g = point :: points ->
  (forall input_file output_dir_bin pt_hat_bin self,
     run_jetscape_analysis read_events initialize_user_output_objects analyze_event
       fs cfg input_file output_dir_bin pt_hat_bin self =
     match initialize_user_output_objects with
     | Return _ => Raise AttributeError
     | Raise x => Raise x
     end) /\
  analyze_jetscape_events read_events initialize_user_output_objects analyze_event
    fs cfg input_dir output_dir =
  match initialize_user_output_objects with
  | Return _ => Raise AttributeError
  | Raise x => Raise x
  end.
Proof.
  intros Hh Hd Hg Hpoints.
  assert (Hrun : forall input_file output_dir_bin pt_hat_bin self,
     run_jetscape_analysis read_events initialize_user_output_objects analyze_event
       fs cfg input_file output_dir_bin pt_hat_bin self =
     match initialize_user_output_objects with
     | Return _ => Raise AttributeError
     | Raise x => Raise x
     end).
  { intros. unfold run_jetscape_analysis, open_reader. rewrite Hh, Hd. cbn [bind].
    now destruct initialize_user_output_objects. }
  split; [exact Hrun|].
  rewrite (analyze_as_process_all fs cfg g input_dir output_dir Hg), Hpoints.
  destruct point as [b lbl]. cbn [process_all process_grid_point].
  rewrite Hrun. now destruct initialize_user_output_objects.
Qed.

(** X10.  A scan without the key [pt_hat_bins] ends the run with
    [KeyError], one whose pt-hat axis has no value with
    [ZeroDivisionError]; in neither case is a file read. *)
Theorem scan_without_pt_hat (fs : filesystem) (cfg : config)
    (input_dir output_dir : string) :
  (lacks_key (parameter_scan cfg) "pt_hat_bins" = true ->
   analyze_jetscape_events read_events initialize_user_output_objects analyze_event
     fs cfg input_dir output_dir = Raise KeyError) /\
  (forall axis, lookup (parameter_scan cfg) "pt_hat_bins" = Return axis ->
   values axis = [] ->
   analyze_jetscape_events read_events initialize_user_output_objects analyze_event
     fs cfg input_dir output_dir = Raise ZeroDivisionError).
Proof.
  split.
  - intros Hlack.
    assert (Hl : lookup (parameter_scan cfg) "pt_hat_bins" = Raise KeyError).
    { revert Hlack. unfold lacks_key.
      induction (parameter_scan cfg) as [|[k a] d IH]; [reflexivity|].
      simpl. intros H. apply andb_prop in H as [Hk Hd].
      destruct (String.eqb k "pt_hat_bins"); [discriminate|]. now apply IH. }
    unfold analyze_jetscape_events, make_grid. now rewrite Hl.
  - intros axis Hl Hv.
    unfold analyze_jetscape_events, make_grid. rewrite Hl. cbn [bind].
    now rewrite Hv.
Qed.



End DriverMore.

Section BaseClass.
Context {fl : PyFloat}.
Import Driver DriverTerms.

Variable HepMCEvent : Type.
Variable read_events : list string -> result (list HepMCEvent).
Variable U : Type.

(** X9.  The base class cannot run by itself: with its own
    [initialize_user_output_objects], which raises [NotImplementedError],
    a run with at least one grid point creates the reader of the first
    bin and ends there, with the exception of the reader if it has one
    and with [NotImplementedError] otherwise; no event is analysed and
    nothing is written. *)
Theorem base_class_is_abstract (fs : filesystem) (cfg : config) (g : grid)
    (analyze_event : py_event HepMCEvent -> U -> result U)
    (input_dir output_dir : string) (pt_hat_bin : nat) (dir_label : string)
    (points : list (nat * string)) :
  make_grid cfg = Return g ->
  grid_points g = (pt_hat_bin, dir_label) :: points ->
  analyze_jetscape_events read_events (Raise NotImplementedError) analyze_event
    fs cfg input_dir output_dir =
  match open_reader read_events fs (reader_type cfg)
          (bin_input_file cfg (with_slash input_dir) dir_label) with
  | Return _ => Raise NotImplementedError
  | Raise x => Raise x
  end.
Proof.
  intros Hg Hpoints.
  rewrite (analyze_as_process_all HepMCEvent read_events U (Raise NotImplementedError)
             analyze_event fs cfg g input_dir output_dir Hg), Hpoints.
  cbn [process_all process_grid_point]. unfold run_jetscape_analysis, bin_input_file.
  now destruct (open_reader _ _ _ _).
Qed.

End BaseClass.

(** ** The driver: the grid in any axis order, labels, and the run as a whole *)

Section DriverRun.
Context {fl : PyFloat}.
Import Driver DriverTerms.

Variable HepMCEvent : Type.
Variable read_events : list string -> result (list HepMCEvent).
Variable U : Type.
Variable initialize_user_output_objects : result U.
Variable analyze_event : py_event HepMCEvent -> U -> result U.

Lemma length_product (lists : list (list yaml_scalar)) :
  length (product lists) = lengths_product lists.
Proof.
  induction lists as [|l rest IH]; [reflexivity|].
  rewrite length_product_cons, IH. reflexivity.
Qed.

Lemma lengths_product_app (l1 l2 : list (list yaml_scalar)) :
  lengths_product (l1 ++ l2) = lengths_product l1 * lengths_product l2.
Proof.
  induction l1 as [|l rest IH]; simpl; [lia|]. rewrite IH. lia.
Qed.

Lemma lookup_found (d : list (string * scan_axis)) (key : string) (axis : scan_axis) :
  lookup d key = Return axis ->
  exists pre k post, d = pre ++ (k, axis) :: post.
Proof.
  induction d as [|[k a] d IH]; simpl; [discriminate|].
  destruct (String.eqb k key).
  - intros [= <-]. now exists [], k, d.
  - intros H. destruct (IH H) as (pre & k' & post & ->).
    now exists ((k, a) :: pre), k', post.
Qed.

(** X12.  Wherever the pt-hat axis stands among the axes, the run has one
    grid point for each pt-hat interval and each combination of the other
    axes' values, and every grid point falls into one of the intervals. *)
Theorem grid_size_any_order (cfg : config) (axis : scan_axis) :
  lookup (parameter_scan cfg) "pt_hat_bins" = Return axis ->
  values axis <> [] ->
  exists g,
    make_grid cfg = Return g /\
    n_combinations_per_pthat g * length (values axis) =
      lengths_product (map (fun kv => values (snd kv)) (parameter_scan cfg)) /\
    length (grid_points g) = (length (values axis) - 1) * n_combinations_per_pthat g /\
    Forall (fun point => fst point < length (values axis) - 1) (grid_points g).
Proof.
  intros Hl Hne.
  destruct (lookup_found _ _ _ Hl) as (pre & k & post & Hd).
  set (vals := map (fun kv => values (snd kv)) (parameter_scan cfg)).
  set (n := length (values axis)).
  assert (Hn : n <> 0).
  { unfold n. intros H. apply length_zero_iff_nil in H. contradiction. }
  set (P := lengths_product (map (fun kv => values (snd kv)) pre) *
            lengths_product (map (fun kv => values (snd kv)) post)).
  assert (HT : lengths_product vals = P * n).
  { unfold vals, P, n. rewrite Hd, map_app, lengths_product_app. simpl. lia. }
  assert (Hg : make_grid cfg =
               Return {| parameter_labels := map (fun kv => label (snd kv)) (parameter_scan cfg);
                         pt_hat_bins := values axis;
                         n_combinations_per_pthat := P;
                         parameter_combinations := drop_last P (product vals) |}).
  { unfold make_grid. rewrite Hl. cbn [bind]. fold n. fold vals.
    destruct n as [|m] eqn:En; [contradiction|].
    rewrite length_product, HT, Nat.div_mul by discriminate. reflexivity. }
  eexists. split; [exact Hg|]. cbn [n_combinations_per_pthat].
  split; [exact (eq_sym HT)|].
  assert (Hlen : length (drop_last P (product vals)) = (n - 1) * P).
  { unfold drop_last. destruct P as [|p] eqn:EP; [simpl; lia|].
    rewrite length_firstn, length_product, HT. rewrite <- EP. nia. }
  assert (Hpoints :
    grid_points {| parameter_labels := map (fun kv => label (snd kv)) (parameter_scan cfg);
                   pt_hat_bins := values axis;
                   n_combinations_per_pthat := P;
                   parameter_combinations := drop_last P (product vals) |}
    = map (point_of
             {| parameter_labels := map (fun kv => label (snd kv)) (parameter_scan cfg);
                pt_hat_bins := values axis;
                n_combinations_per_pthat := P;
                parameter_combinations := drop_last P (product vals) |})
          (enumerate (drop_last P (product vals)))).
  { unfold grid_points. cbn [parameter_combinations].
    apply flat_map_singletons with (f := fun ic => grid_point _ (fst ic) (snd ic)).
    intros [i c] Hin. apply enumerate_index in Hin. rewrite Hlen in Hin.
    unfold grid_point, point_of.
    cbn [fst snd n_combinations_per_pthat pt_hat_bins parameter_labels]. fold n.
    assert (Hlt : i / P < n - 1) by (apply Nat.Div0.div_lt_upper_bound; lia).
    apply Nat.ltb_lt in Hlt. now rewrite Hlt. }
  split.
  - rewrite Hpoints, length_map, length_enumerate. exact Hlen.
  - rewrite Hpoints. apply Forall_forall. intros point Hin.
    apply in_map_iff in Hin as ([i c] & <- & Hin).
    apply enumerate_index in Hin. rewrite Hlen in Hin.
    unfold point_of. cbn [fst n_combinations_per_pthat].
    apply Nat.Div0.div_lt_upper_bound. lia.
Qed.

Lemma string_app_assoc (a b c : string) :
  ((a ++ b) ++ c = a ++ (b ++ c))%string.
Proof.
  induction a as [|x a IH]; simpl; [reflexivity | now rewrite IH].
Qed.

Lemma string_app_empty (a : string) : (a ++ "" = a)%string.
Proof.
  induction a as [|x a IH]; simpl; [reflexivity | now rewrite IH].
Qed.

Lemma dir_label_from_shift (pt_hat_bin : nat) (rest : list yaml_scalar) :
  forall i l0 labels acc,
    dir_label_from (S (S i)) (l0 :: labels) pt_hat_bin rest acc =
    dir_label_from (S i) labels pt_hat_bin rest acc.
Proof.
  induction rest as [|v rest IH]; intros i l0 labels acc; [reflexivity|].
  cbn [dir_label_from Nat.eqb nth]. apply IH.
Qed.

Lemma dir_label_from_one (pt_hat_bin : nat) (rest : list yaml_scalar) :
  forall l0 labels acc,
    length rest <= length labels ->
    dir_label_from 1 (l0 :: labels) pt_hat_bin rest acc =
    (acc ++ label_suffix labels rest)%string.
Proof.
  induction rest as [|v rest IH]; intros l0 labels acc Hlen.
  - simpl. destruct labels; now rewrite string_app_empty.
  - destruct labels as [|l ls]; [simpl in Hlen; lia|].
    cbn [dir_label_from Nat.eqb nth].
    rewrite dir_label_from_shift, IH by (simpl in Hlen; lia).
    cbn [label_suffix]. now rewrite !string_app_assoc.
Qed.

(** X13.  The directory label of a grid point is the number of its pt-hat
    bin followed, for each further axis in order, by an underscore, the
    label of the axis and the value taken; the value of the first axis is
    never part of it. *)
Theorem dir_label_shape (l0 : string) (labels : list string) (pt_hat_bin : nat)
    (value : yaml_scalar) (rest : list yaml_scalar) :
  length rest <= length labels ->
  make_dir_label (l0 :: labels) pt_hat_bin (value :: rest) =
  (PyStr.of_nat pt_hat_bin ++ label_suffix labels rest)%string.
Proof.
  intros Hlen. unfold make_dir_label. cbn [dir_label_from Nat.eqb].
  now apply dir_label_from_one.
Qed.

Lemma process_all_app (fs : filesystem) (cfg : config) (input_dir output_dir : string)
    (l1 l2 : list (nat * string)) :
  forall self,
    process_all read_events initialize_user_output_objects analyze_event
      fs cfg input_dir output_dir (l1 ++ l2) self =
    match process_all read_events initialize_user_output_objects analyze_event
            fs cfg input_dir output_dir l1 self with
    | Return self' =>
        process_all read_events initialize_user_output_objects analyze_event
          fs cfg input_dir output_dir l2 self'
    | Raise x => Raise x
    end.
Proof.
  induction l1 as [|p l1 IH]; intros self; [reflexivity|].
  cbn [app process_all].
  destruct (process_grid_point _ _ _ _ _ _ _ _ _) as [self'|x]; cbn [bind];
    [apply IH | reflexivity].
Qed.

(** X14.  The first bin that fails ends the run with its exception: the
    bins after it are not processed, and the exception is not replaced by
    another. *)
Theorem first_failure_ends_run (fs : filesystem) (cfg : config) (g : grid)
    (input_dir output_dir : string)
    (done : list (nat * string)) (point : nat * string) (rest : list (nat * string))
    (self : driver U) (x : exn) :
  make_grid cfg = Return g ->
  grid_points g = done ++ point :: rest ->
  process_all read_events initialize_user_output_objects analyze_event
    fs cfg (with_slash input_dir) (with_slash output_dir) done initialize_config
    = Return self ->
  process_grid_point read_events initialize_user_output_objects analyze_event
    fs cfg (with_slash input_dir) (with_slash output_dir) point self = Raise x ->
  analyze_jetscape_events read_events initialize_user_output_objects analyze_event
    fs cfg input_dir output_dir = Raise x.
Proof.
  intros Hg Hpoints Hdone Hfail.
  unfold analyze_jetscape_events. rewrite Hg. cbn [bind].
  rewrite grid_loop_process_all.
  change (flat_map _ (enumerate (parameter_combinations g))) with (grid_points g).
  rewrite Hpoints, process_all_app, Hdone. cbn [process_all].
  now rewrite Hfail.
Qed.

End DriverRun.

(** ** The driver: what a finished run has written *)

Section DriverAccounting.
Context {fl : PyFloat}.
Import Driver DriverTerms.

Variable HepMCEvent : Type.
Variable read_events : list string -> result (list HepMCEvent).
Variable U : Type.
Variable initialize_user_output_objects : result U.
Variable analyze_event : py_event HepMCEvent -> U -> result U.

(** One bin that returns has written one file, under the bin's directory,
    with both histograms filled at the bin's index plus one and the count
    the counter has reached. *)
Lemma run_jetscape_analysis_file (fs : filesystem) (cfg : config)
    (input_file output_dir_bin : string) (pt_hat_bin : nat) (self self' : driver U) :
  run_jetscape_analysis read_events initialize_user_output_objects analyze_event
    fs cfg input_file output_dir_bin pt_hat_bin self = Return self' ->
  exists f,
    written self' = written self ++ [f] /\
    path f = PyStr.path_join output_dir_bin "AnalysisResults.root" /\
    hNevents f = (pt_hat_bin + 1, event_id self') /\
    fst (hCrossSection f) = pt_hat_bin + 1 /\
    event_id self <= event_id self'.
Proof.
  unfold run_jetscape_analysis.
  destruct (open_reader _ _ _ _) as [[r|]|x]; cbn [bind]; try discriminate.
  - destruct initialize_user_output_objects as [u|x]; cbn [bind]; [|discriminate].
    destruct (ReaderBase.call reader_next (n_event_max cfg) r) as [ys ending].
    destruct (event_loop analyze_event ys ending u self) as [[u1 self1]|x] eqn:E;
      cbn [bind]; [|discriminate].
    apply event_loop_count in E as [Hid Hw].
    unfold write_output_objects.
    destruct (cross_section _ _ _) as [xs|x]; cbn [bind]; [|discriminate].
    destruct (as_double xs) as [d|x]; cbn [bind]; [|discriminate].
    intros [= <-]. cbn [fst snd written event_id] in *.
    eexists. split; [rewrite Hw; reflexivity|].
    cbn [path hNevents hCrossSection fst]. repeat split. lia.
  - destruct initialize_user_output_objects; discriminate.
Qed.

Lemma last_cons (l : list nat) : forall a d, last (a :: l) d = last l a.
Proof.
  induction l as [|b l IH]; intros a d; [reflexivity|].
  change (last (a :: b :: l) d) with (last (b :: l) d).
  now rewrite (IH b d), (IH b a).
Qed.

Lemma process_all_files (fs : filesystem) (cfg : config) (input_dir output_dir : string)
    (points : list (nat * string)) :
  forall self self',
    process_all read_events initialize_user_output_objects analyze_event
      fs cfg input_dir output_dir points self = Return self' ->
    exists files,
      written self' = written self ++ files /\
      map path files =
        map (fun p => PyStr.path_join (bin_output_dir output_dir (snd p))
                        "AnalysisResults.root") points /\
      map (fun f => fst (hNevents f)) files = map (fun p => fst p + 1) points /\
      map (fun f => fst (hCrossSection f)) files = map (fun p => fst p + 1) points /\
      ascending_from (event_id self) (map (fun f => snd (hNevents f)) files) /\
      last (map (fun f => snd (hNevents f)) files) (event_id self) = event_id self'.
Proof.
  induction points as [|[b lbl] rest IH]; intros self self'.
  - intros [= <-]. exists []. rewrite app_nil_r. now repeat split.
  - cbn [process_all process_grid_point].
    destruct (run_jetscape_analysis _ _ _ _ _ _ _ _ _) as [s1|x] eqn:Hrun;
      cbn [bind]; [|discriminate].
    intros Hrest.
    apply run_jetscape_analysis_file in Hrun
      as (f & Hw & Hpath & Hn & Hx & Hle).
    destruct (IH _ _ Hrest) as (files & Hw' & Hp' & Hb' & Hc' & Hasc & Hlast).
    exists (f :: files). cbn [map fst snd].
    rewrite Hp', Hb', Hc', Hpath, Hx, Hn. cbn [fst snd].
    repeat split.
    + rewrite Hw', Hw, <- app_assoc. reflexivity.
    + exact Hle.
    + exact Hasc.
    + rewrite last_cons. exact Hlast.
Qed.

(** X15.  A run that returns has written one file for each grid point, in
    the order of the grid: each under the directory of its label, with
    both event histograms filled at the index of its pt-hat bin plus one.
    The event counts in the files never decrease from one file to the
    next, and the last of them is the counter the run ends with. *)
Theorem run_accounting (fs : filesystem) (cfg : config) (g : grid)
    (input_dir output_dir : string) (d : driver U) :
  make_grid cfg = Return g ->
  analyze_jetscape_events read_events initialize_user_output_objects analyze_event
    fs cfg input_dir output_dir = Return d ->
  length (written d) = length (grid_points g) /\
  map path (written d) =
    map (fun p => PyStr.path_join (bin_output_dir (with_slash output_dir) (snd p))
                    "AnalysisResults.root") (grid_points g) /\
  map (fun f => fst (hNevents f)) (written d) = map (fun p => fst p + 1) (grid_points g) /\
  map (fun f => fst (hCrossSection f)) (written d) =
    map (fun p => fst p + 1) (grid_points g) /\
  ascending_from 0 (map (fun f => snd (hNevents f)) (written d)) /\
  last (map (fun f => snd (hNevents f)) (written d)) 0 = event_id d.
Proof.
  intros Hg Hrun.
  unfold analyze_jetscape_events in Hrun. rewrite Hg in Hrun. cbn [bind] in Hrun.
  rewrite grid_loop_process_all in Hrun.
  change (flat_map _ (enumerate (parameter_combinations g))) with (grid_points g) in Hrun.
  apply process_all_files in Hrun as (files & Hw & Hp & Hb & Hc & Hasc & Hlast).
  cbn [written event_id initialize_config app] in *. rewrite Hw.
  repeat split; trivial.
  rewrite <- (length_map path files), Hp. apply length_map.
Qed.

(** X16.  The loop over the events hands to the hook the events before
    the first sentinel, in order, and counts them; what the reader yields
    after a sentinel is not looked at, neither an event nor the exception
    its sequence would end with.  Without a sentinel the loop ends with
    the sequence, in its exception if it has one. *)
Theorem event_loop_until_sentinel (events rest : list (py_event HepMCEvent))
    (ending : option exn) (u : U) (self : driver U) :
  forallb (fun e => negb (is_falsy e)) events = true ->
  event_loop analyze_event (events ++ PyFalse :: rest) ending u self =
    (u' <- analyze_all analyze_event events u ;;
     Return (u', counted (length events) self)) /\
  event_loop analyze_event events None u self =
    (u' <- analyze_all analyze_event events u ;;
     Return (u', counted (length events) self)) /\
  (forall x, event_loop analyze_event events (Some x) u self =
     (u' <- analyze_all analyze_event events u ;; Raise x)).
Proof.
  revert u self.
  induction events as [|e events IH]; intros u self Hall.
  - unfold counted. simpl. rewrite Nat.add_0_r.
    destruct self. repeat split.
  - simpl in Hall. apply andb_prop in Hall as [He Hall].
    apply negb_true_iff in He.
    cbn [app event_loop analyze_all length]. rewrite He.
    destruct (analyze_event e u) as [u1|x]; cbn [bind]; [|repeat split].
    destruct (IH u1 (get_event_info self) Hall) as (H1 & H2 & H3).
    rewrite H1, H2.
    assert (Hc : counted (length events) (get_event_info self) =
                 counted (S (length events)) self).
    { unfold counted, get_event_info. cbn [event_id written]. f_equal. lia. }
    rewrite Hc. repeat split. intros x. apply H3.
Qed.

End DriverAccounting.

(** ** [cross_section], line by line *)

Section CrossSectionMore.
Context {fl : PyFloat}.
Import Driver DriverTerms.

Lemma cross_section_lines_app (rtype : string) (l1 l2 : list string) :
  forall cross_sections,
    cross_section_lines rtype (l1 ++ l2) cross_sections =
    match cross_section_lines rtype l1 cross_sections with
    | Return cs => cross_section_lines rtype l2 cs
    | Raise x => Raise x
    end.
Proof.
  induction l1 as [|l rest IH]; intros acc; [reflexivity|].
  cbn [app cross_section_lines].
  destruct (String.eqb rtype "hepmc").
  - destruct (PyStr.contains "GenCrossSection" l); [|apply IH].
    destruct (ReaderAscii.getitem _ 3) as [tok|x]; cbn [bind]; [|reflexivity].
    destruct (float_of_str tok); [apply IH | reflexivity].
  - destruct (String.eqb rtype "dat"); [|apply IH].
    destruct (PyStr.contains "sigmaGen" l); [|apply IH].
    destruct (ReaderAscii.getitem _ 2) as [tok|x]; cbn [bind]; [|reflexivity].
    destruct (float_of_str tok); [apply IH | reflexivity].
Qed.

Lemma last_item_snoc (cs : list pyval) (v : pyval) : last_item (cs ++ [v]) = Return v.
Proof.
  unfold last_item. now rewrite rev_unit.
Qed.

(** X17.  In the HepMC format the value returned is that of the last line
    with the keyword: its fourth token, converted and divided by 1e9,
    whatever the lines before it reported. *)
Theorem hepmc_last_report_wins (fs : filesystem) (input_file : string)
    (before after : list string) (line tok : string) (x : F) :
  open_lines fs input_file = Return (before ++ line :: after) ->
  returns (cross_section_lines "hepmc" before []) = true ->
  PyStr.contains "GenCrossSection" line = true ->
  nth_error (PyStr.split line) 3 = Some tok ->
  float_of_str tok = Some x ->
  forallb (fun l => negb (metadata_line "hepmc" l)) after = true ->
  cross_section fs "hepmc" input_file = Return (PyFloatV (div_1e9 x)).
Proof.
  intros Hopen Hbefore Hkey Htok Hx Hafter.
  unfold cross_section. rewrite Hopen. cbn [bind].
  rewrite cross_section_lines_app.
  destruct (cross_section_lines "hepmc" before []) as [cs|y]; [|discriminate].
  cbn [cross_section_lines String.eqb Ascii.eqb Bool.eqb]. cbv iota.
  rewrite Hkey. unfold ReaderAscii.getitem. rewrite Htok. cbn [bind]. rewrite Hx.
  rewrite cross_section_lines_skip by exact Hafter. cbn [bind].
  apply last_item_snoc.
Qed.

(** X18.  Every line that holds the keyword is read as a report, wherever
    the keyword stands in it.  If such a line has too few tokens the
    extraction ends with [IndexError], and if the token at the place of
    the value is no number it ends with [ValueError], whatever the lines
    after it report. *)
Theorem malformed_report_is_fatal (fs : filesystem) (rtype input_file : string)
    (before after : list string) (line : string) :
  open_lines fs input_file = Return (before ++ line :: after) ->
  returns (cross_section_lines rtype before []) = true ->
  metadata_line rtype line = true ->
  (nth_error (PyStr.split line) (value_index rtype) = None ->
   cross_section fs rtype input_file = Raise IndexError) /\
  (forall tok, nth_error (PyStr.split line) (value_index rtype) = Some tok ->
   float_of_str tok = None ->
   cross_section fs rtype input_file = Raise ValueError).
Proof.
  intros Hopen Hbefore Hmeta.
  unfold cross_section. rewrite Hopen. cbn [bind].
  rewrite cross_section_lines_app.
  destruct (cross_section_lines rtype before []) as [cs|y]; [|discriminate].
  unfold metadata_line, value_index in *. cbn [cross_section_lines].
  destruct (String.eqb rtype "hepmc").
  - rewrite Hmeta. unfold ReaderAscii.getitem. split.
    + intros Hnone. now rewrite Hnone.
    + intros tok Htok Hx. rewrite Htok. cbn [bind]. now rewrite Hx.
  - destruct (String.eqb rtype "dat"); [|discriminate].
    rewrite Hmeta. unfold ReaderAscii.getitem. split.
    + intros Hnone. now rewrite Hnone.
    + intros tok Htok Hx. rewrite Htok. cbn [bind]. now rewrite Hx.
Qed.

End CrossSectionMore.

(** ** The driver's ASCII reader *)

Section DriverAscii.
Context {fl : PyFloat}.
Import Driver DriverTerms.

Variable HepMCEvent : Type.
Variable read_events : list string -> result (list HepMCEvent).

(** X19.  The driver constructs the ASCII reader from the hadrons file
    alone: the reader of a bin holds no partons, and every event it
    returns has the empty partons component, whatever files stand beside
    the input. *)
Theorem driver_reads_hadrons_only (fs : filesystem) (input_file : string)
    (r : any_reader HepMCEvent) :
  open_reader read_events fs "dat" input_file = Return (Some r) ->
  exists a,
    r = Ascii a /\
    ReaderAscii.event_list_partons a = None /\
    forall k es,
      ReaderAscii.next_events k a = Return es ->
      Forall (fun e => ReaderAscii.partons e = ReaderAscii.NoPartons) es.
Proof.
  unfold open_reader. cbn [String.eqb Ascii.eqb Bool.eqb]. cbv iota.
  destruct (ReaderAscii.parse_event fs input_file) as [hs|x] eqn:Hh.
  - rewrite (init_without_partons fs input_file "" hs eq_refl Hh). cbn [bind].
    intros [= <-]. exists (ReaderAscii.fresh hs None).
    split; [reflexivity|]. split; [reflexivity|].
    intros k es.
    change (ReaderAscii.fresh hs None) with (ReaderAscii.at_position 0 hs None).
    rewrite next_events_bounded by (try discriminate; lia).
    destruct (0 + k <=? length hs); [|discriminate].
    intros [= <-]. apply Forall_forall. intros e Hin.
    apply in_map_iff in Hin as (i & <- & _). reflexivity.
  - unfold ReaderAscii.init. rewrite Hh. discriminate.
Qed.

End DriverAscii.

(** ** The driver on further inputs *)

Module DriverMoreRuns.
Import Driver DriverTerms Examples MoreExamples DecimalFloat.

Lemma unknown_reader_type_witness :
  analyze_jetscape_events read_event_records no_objects ignore_event
    no_files root_reader "in" "out" = Raise AttributeError.
Proof.
  destruct (unknown_reader_type string read_event_records unit no_objects ignore_event
              no_files root_reader two_bins_grid "in" "out" (0, "0") [(1, "1")]
              eq_refl eq_refl eq_refl eq_refl) as (_ & H).
  exact H.
Defined.

Lemma base_class_is_abstract_witness :
  analyze_jetscape_events read_event_records (Raise NotImplementedError)
    (ignore_event (E := py_event string)) fs_two_bins two_bins "in" "out"
  = Raise NotImplementedError.
Proof.
  rewrite (base_class_is_abstract string read_event_records unit fs_two_bins two_bins
             two_bins_grid ignore_event "in" "out" 0 "0" [(1, "1")] eq_refl eq_refl).
  reflexivity.
Defined.

Lemma scan_without_pt_hat_witness :
  analyze_jetscape_events read_event_records no_objects ignore_event
    no_files no_pt_hat "in" "out" = Raise KeyError /\
  analyze_jetscape_events read_event_records no_objects ignore_event
    no_files no_edges "in" "out" = Raise ZeroDivisionError.
Proof.
  split.
  - apply (proj1 (scan_without_pt_hat string read_event_records unit no_objects
                    ignore_event no_files no_pt_hat "in" "out")).
    reflexivity.
  - apply (proj2 (scan_without_pt_hat string read_event_records unit no_objects
                    ignore_event no_files no_edges "in" "out")
             {| label := "pt_hat_bins"; values := [] |}); reflexivity.
Defined.


Lemma grid_size_any_order_witness :
  exists g,
    make_grid aux_first = Return g /\
    n_combinations_per_pthat g * 3 = 6 /\
    length (grid_points g) = (3 - 1) * n_combinations_per_pthat g /\
    Forall (fun point => fst point < 3 - 1) (grid_points g).
Proof.
  apply (grid_size_any_order aux_first
           {| label := "pt_hat_bins"; values := [YInt 10; YInt 20; YInt 30] |}).
  - reflexivity.
  - discriminate.
Defined.

Lemma dir_label_shape_witness :
  make_dir_label ["pt_hat_bins"; "alphas"; "Q0"] 1 [YInt 20; YStr "A"; YInt 2] =
  "1_alphasA_Q02".
Proof.
  rewrite (dir_label_shape "pt_hat_bins" ["alphas"; "Q0"] 1 (YInt 20) [YStr "A"; YInt 2]).
  - reflexivity.
  - simpl. lia.
Defined.

Lemma first_failure_ends_run_witness :
  analyze_jetscape_events read_event_records no_objects ignore_event
    fs_first_bin_only two_bins "in" "out" = Raise FileNotFoundError.
Proof.
  apply (first_failure_ends_run string read_event_records unit no_objects ignore_event
           fs_first_bin_only two_bins two_bins_grid "in" "out"
           [(0, "0")] (1, "1") [] after_first_bin FileNotFoundError);
    reflexivity.
Defined.

Lemma run_accounting_witness :
  analyze_jetscape_events read_event_records no_objects ignore_event
    fs_two_bins two_bins "in" "out" = Return two_bins_result /\
  map path (written two_bins_result) =
    ["out/0/AnalysisResults.root"; "out/1/AnalysisResults.root"] /\
  map (fun f => fst (hNevents f)) (written two_bins_result) = [1; 2] /\
  ascending_from 0 (map (fun f => snd (hNevents f)) (written two_bins_result)).
Proof.
  split; [reflexivity|].
  destruct (run_accounting string read_event_records unit no_objects ignore_event
              fs_two_bins two_bins two_bins_grid "in" "out" two_bins_result
              eq_refl eq_refl) as (_ & Hp & Hb & _ & Hasc & _).
  split; [exact Hp|]. split; [exact Hb | exact Hasc].
Defined.

Lemma event_loop_until_sentinel_witness :
  event_loop count_event (yielded_events ++ PyFalse :: [EventHepMC "E 3 0 0"])
    (Some (SystemExit "")) 0 initialize_config =
  Return (2, counted 2 (initialize_config (U := nat))).
Proof.
  destruct (event_loop_until_sentinel string nat count_event yielded_events
              [EventHepMC "E 3 0 0"] (Some (SystemExit "")) 0 initialize_config eq_refl)
    as (H & _).
  rewrite H. reflexivity.
Defined.

Lemma hepmc_last_report_wins_witness :
  cross_section (one_file "test_out.hepmc" hepmc_file) "hepmc" "test_out.hepmc"
    = Return (PyFloatV (div_1e9 (3020000000 # 1)%Q)).
Proof.
  apply (hepmc_last_report_wins (one_file "test_out.hepmc" hepmc_file) "test_out.hepmc"
           (firstn 6 hepmc_file) [] (line "A 0 GenCrossSection 3020000000 1")
           "3020000000"); reflexivity.
Defined.

Lemma malformed_report_is_fatal_witness :
  cross_section (one_file "test_out.dat" short_report_file) "dat" "test_out.dat"
    = Raise IndexError.
Proof.
  apply (proj1 (malformed_report_is_fatal (one_file "test_out.dat" short_report_file)
                  "dat" "test_out.dat" (firstn 2 short_report_file)
                  [line "# sigmaGen 3.02 sigmaErr 0.05"] (line "# sigmaGen")
                  eq_refl eq_refl eq_refl)).
  reflexivity.
Defined.

Lemma driver_reads_hadrons_only_witness :
  exists a,
    open_reader read_event_records fs_hadrons "dat" "test_out.dat"
      = Return (Some (Ascii a)) /\
    ReaderAscii.event_list_partons a = None.
Proof.
  destruct (driver_reads_hadrons_only string read_event_records fs_hadrons "test_out.dat"
              (Ascii (ReaderAscii.fresh hadrons_events None)) eq_refl)
    as (a & Ha & Hp & _).
  exists a. split; [now rewrite <- Ha | exact Hp].
Defined.

End DriverMoreRuns.

(** ** Hadrons and partons, by the events of the two files *)

Section PairedFiles.
Context {fl : PyFloat}.
Import ReaderAscii.

(** A block file without an empty block before the last is read as its
    blocks, one event for each marker. *)
Lemma parse_event_all_blocks (fs : filesystem) (input_file : string)
    (lines : list string) :
  open_lines fs input_file = Return lines ->
  well_formed lines = true ->
  inner_blocks_nonempty lines = true ->
  exists evs,
    parse_event fs input_file = Return evs /\
    map particle_count evs = map Some (block_sizes lines) /\
    length evs = count_markers lines.
Proof.
  intros Hopen Hwf Hinner.
  destruct (parse_event_lines_blocks lines Hwf) as (evs & Hrun & Hmap).
  assert (Hne : block_sizes lines <> []).
  { unfold well_formed in Hwf. apply andb_prop in Hwf as [Hs _].
    destruct lines as [|l rest]; [discriminate|]. simpl in *.
    rewrite Hs. discriminate. }
  rewrite (kept_all _ Hne Hinner) in Hmap.
  exists evs. split; [|split].
  - unfold parse_event. now rewrite Hopen.
  - exact Hmap.
  - rewrite <- length_block_sizes.
    rewrite <- (length_map particle_count evs), Hmap. apply length_map.
Qed.

(** C4 (as amended).  For two files that both exist, start with a marker,
    hold markers and particle lines only and have no empty block before
    the last: construction exits the process when the files have
    different numbers of markers; when the numbers are equal the reader
    returns one event for each marker, and its i-th event pairs the i-th
    block of the hadrons file with the i-th block of the partons file. *)
Theorem hadron_parton_blocks (fs : filesystem)
    (input_file_hadrons input_file_partons : string)
    (hadron_lines parton_lines : list string) :
  open_lines fs input_file_hadrons = Return hadron_lines ->
  open_lines fs input_file_partons = Return parton_lines ->
  well_formed hadron_lines = true ->
  inner_blocks_nonempty hadron_lines = true ->
  well_formed parton_lines = true ->
  inner_blocks_nonempty parton_lines = true ->
  (count_markers hadron_lines <> count_markers parton_lines ->
     init fs input_file_hadrons input_file_partons =
     Raise (SystemExit (count_mismatch_message (count_markers hadron_lines)
                          (count_markers parton_lines)))) /\
  (count_markers hadron_lines = count_markers parton_lines ->
     exists r hs ps,
       init fs input_file_hadrons input_file_partons = Return r /\
       parse_event fs input_file_hadrons = Return hs /\
       parse_event fs input_file_partons = Return ps /\
       map particle_count hs = map Some (block_sizes hadron_lines) /\
       map particle_count ps = map Some (block_sizes parton_lines) /\
       n_events r = count_markers hadron_lines /\
       next_events (count_markers hadron_lines) r =
         Return (map paired (combine hs ps))).
Proof.
  intros Hoh Hop Hwh Hih Hwp Hip.
  destruct (parse_event_all_blocks fs _ _ Hoh Hwh Hih) as (hs & Hh & Hmh & Hlh).
  destruct (parse_event_all_blocks fs _ _ Hop Hwp Hip) as (ps & Hp & Hmp & Hlp).
  pose proof (init_with_partons _ _ _ _ _ Hh Hp) as Hinit.
  rewrite Hlh, Hlp in Hinit.
  split; intros Hlen.
  - apply Nat.eqb_neq in Hlen. now rewrite Hlen in Hinit.
  - rewrite Hlen, Nat.eqb_refl in Hinit.
    exists (fresh hs (Some ps)), hs, ps.
    repeat split; trivial.
    rewrite <- Hlh.
    change (fresh hs (Some ps)) with (at_position 0 hs (Some ps)).
    rewrite next_events_seq.
    + rewrite events_with_partons; trivial; [lia|].
      destruct (parse_event_opened _ _ _ Hp) as (_ & lines & _ & Hl).
      now apply parse_event_lines_length with (lines := lines).
    + simpl. lia.
    + intros pl [= <-]. lia.
Qed.

End PairedFiles.

Module PairedRuns.
Import ReaderAscii Examples MoreExamples DecimalFloat.

(** C4, as the document states it, fails three ways.  A hadrons file of
    two markers, the first block empty, and a partons file of one marker:
    the numbers of events differ and construction returns.  A hadrons file
    of one event and an empty partons file: the numbers differ, none
    against one, and construction returns.  Two files of two markers each,
    one of them with an empty first block: the numbers are equal and
    construction exits. *)
Lemma hadron_parton_counts_counterexample :
  (count_markers empty_event_file = 2 /\ count_markers one_block_file = 1 /\
   returns (init (two_files "test_out.dat" empty_event_file "partons.dat" one_block_file)
              "test_out.dat" "partons.dat") = true) /\
  (count_markers one_block_file = 1 /\ count_markers (@nil string) = 0 /\
   returns (init (two_files "test_out.dat" one_block_file "partons.dat" [])
              "test_out.dat" "partons.dat") = true) /\
  (count_markers hadrons_file = 2 /\ count_markers empty_event_file = 2 /\
   init fs_unequal "test_out.dat" "partons.dat"
     = Raise (SystemExit "Final state partons has 2 events, but partons has 1.")).
Proof.
  repeat split.
Qed.

Lemma hadron_parton_blocks_witness :
  (exists r,
      init fs_both "test_out.dat" "partons.dat" = Return r /\
      n_events r = 2 /\
      next_events 2 r = Return (map paired (combine hadrons_events partons_events))) /\
  init (two_files "test_out.dat" hadrons_file "partons.dat" one_block_file)
    "test_out.dat" "partons.dat"
    = Raise (SystemExit "Final state partons has 2 events, but partons has 1.").
Proof.
  split.
  - destruct (proj2 (hadron_parton_blocks fs_both "test_out.dat" "partons.dat"
                       hadrons_file partons_file
                       ltac:(reflexivity) ltac:(reflexivity) ltac:(reflexivity)
                       ltac:(reflexivity) ltac:(reflexivity) ltac:(reflexivity))
                ltac:(reflexivity))
      as (r & hs & ps & Hinit & Hh & Hp & _ & _ & Hn & Hnext).
    exists r. split; [exact Hinit|]. split; [exact Hn|].
    vm_compute in Hh. vm_compute in Hp.
    injection Hh as <-. injection Hp as <-. exact Hnext.
  - apply (proj1 (hadron_parton_blocks
                    (two_files "test_out.dat" hadrons_file "partons.dat" one_block_file)
                    "test_out.dat" "partons.dat" hadrons_file one_block_file
                    ltac:(reflexivity) ltac:(reflexivity) ltac:(reflexivity)
                    ltac:(reflexivity) ltac:(reflexivity) ltac:(reflexivity))).
    vm_compute. discriminate.
Defined.

End PairedRuns.
